(** * A2A travel booking agent: the business logic and its executor

  A shallow embedding of [TaskExamples/server.py].  The file follows the
  layout of the source: first the pure business logic ([TravelAgent]),
  then the executor that bridges it to the task protocol
  ([TravelAgentExecutor]), then the protocol engine the executor talks to.

  Text is Python [str] restricted to code points below 256: one [ascii]
  is one code point. *)

From Stdlib Require Import Ascii String NArith.
From stdpp Require Import base option list strings gmap.

Local Open Scope string_scope.

(** ** Python string operations used by the source *)
Module PyStr.

Definition code (c : ascii) : N := N_of_ascii c.

(** [str.lower] on one code point: A-Z and the Latin-1 capitals
    (U+00C0..U+00DE without the multiplication sign U+00D7) move up by 32. *)
Definition lower_char (c : ascii) : ascii :=
  let n := code c in
  if ((65 <=? n) && (n <=? 90))%N then ascii_of_N (n + 32)
  else if ((192 <=? n) && (n <=? 222) && negb (n =? 215))%N
       then ascii_of_N (n + 32)
  else c.

Fixpoint lower (s : string) : string :=
  match s with
  | EmptyString => EmptyString
  | String c t => String (lower_char c) (lower t)
  end.

(** [needle in hay]: substring test. *)
Fixpoint contains (needle hay : string) : bool :=
  String.prefix needle hay ||
  match hay with
  | EmptyString => false
  | String _ t => contains needle t
  end.

(** [str.isspace] on one code point below 256. *)
Definition is_space (c : ascii) : bool :=
  let n := code c in
  (((9 <=? n) && (n <=? 13)) || ((28 <=? n) && (n <=? 32))
   || (n =? 133) || (n =? 160))%N.

Fixpoint lstrip (s : string) : string :=
  match s with
  | EmptyString => EmptyString
  | String c t => if is_space c then lstrip t else s
  end.

Fixpoint rstrip (s : string) : string :=
  match s with
  | EmptyString => EmptyString
  | String c t =>
      match rstrip t with
      | EmptyString => if is_space c then EmptyString else String c EmptyString
      | t' => String c t'
      end
  end.

(** [str.strip()] with no argument. *)
Definition strip (s : string) : string := rstrip (lstrip s).

End PyStr.

(** ** Agent logic (pure business logic) *)
Module TravelAgent.

(** A booking is a Python dict from field names to text. *)
Abbreviation dict := (gmap string string).

(** The dict returned by [process] always has the three keys
    [response], [needs_input] and [booking]; it is a record here. *)
Record result := Result {
  response : string;
  needs_input : bool;
  booking : option dict
}.

Definition hotel_booking : dict :=
  <["type" := "Hotel"]>
  (<["hotel" := "Le Ciel Paris Airport"]>
  (<["location" := "Near Charles de Gaulle Airport, Paris"]>
  (<["check_in" := "June 15, 2026"]>
  (<["check_out" := "June 22, 2026"]>
  (<["room" := "Deluxe King"]>
  (<["status" := "CONFIRMED"]> ∅)))))).

Definition flight_booking (departure : string) : dict :=
  <["type" := "Flight"]>
  (<["destination" := "Paris"]>
  (<["departure" := departure]>
  (<["airline" := "SkyHigh Airlines"]>
  (<["flight" := "SH-1042"]>
  (<["status" := "CONFIRMED"]> ∅))))).

Definition date_words : list string :=
  [ "jan"; "feb"; "mar"; "apr"; "may"; "jun";
    "jul"; "aug"; "sep"; "oct"; "nov"; "dec";
    "2025"; "2026"; "2027" ].

Definition has_date (text : string) : bool :=
  existsb (fun date => PyStr.contains date text) date_words.

Definition ask_dates : string :=
  "I'd be happy to help you book a flight! " ++
  "Could you please provide your preferred travel dates? " ++
  "(e.g. 'June 15 - June 22, 2026')".

Definition process (user_input context_id : string) : result :=
  let text := PyStr.lower user_input in
  if PyStr.contains "hotel" text then
    {| response := "Your hotel has been booked! Here are the details:";
       needs_input := false;
       booking := Some hotel_booking |}
  else if has_date text then
    {| response := "Your flight has been booked! Here are the details:";
       needs_input := false;
       booking := Some (flight_booking (PyStr.strip user_input)) |}
  else
    {| response := ask_dates;
       needs_input := true;
       booking := None |}.

End TravelAgent.

(** ** Protocol data

    The source imports these types from the a2a package, which is not part
    of the repository. *)
Module A2A.

(** Task identifiers are opaque to the source; they are numbers here so
    that a store can mint fresh ones with a counter. *)
Abbreviation TaskId := nat.

(** Modelled from the spec: the [TaskState] enum of section 4.2, declared
    in the a2a package. *)
Inductive TaskState :=
| SUBMITTED | WORKING | INPUT_REQUIRED | COMPLETED | CANCELED | FAILED.

(** Modelled from the spec: COMPLETED, CANCELED and FAILED are terminal
    (section 4.2). *)
Definition is_terminal (s : TaskState) : bool :=
  match s with
  | COMPLETED | CANCELED | FAILED => true
  | SUBMITTED | WORKING | INPUT_REQUIRED => false
  end.

Inductive Role := user | agent.

Inductive Part := TextPart (text : string).

(** Modelled from the spec: [Message] of section 3, declared in the a2a
    package.  The random [message_id] is left out. *)
Record Message := {
  role : Role;
  parts : list Part;
  m_context_id : string;
  m_task_id : option TaskId
}.

(** Modelled from the spec: [Artifact] of section 3, declared in the a2a
    package.  The random [artifact_id] is left out. *)
Record Artifact := { a_parts : list Part }.

(** Modelled from the spec: the status of a task, section 3 (the timestamp
    is left out). *)
Record TaskStatus := {
  state : TaskState;
  message : option Message
}.

(** Modelled from the spec: [Task] of section 3, declared in the a2a
    package. *)
Record Task := {
  id : TaskId;
  t_context_id : string;
  status : TaskStatus;
  status_history : list TaskStatus;
  artifacts : list Artifact
}.

(** Modelled from the spec: the two variants of [Event], section 3. *)
Inductive Event :=
| StatusUpdate (task_id : TaskId) (context_id : string)
               (st : TaskState) (msg : option Message) (final : bool)
| ArtifactUpdate (task_id : TaskId) (context_id : string)
                 (artifact : Artifact) (final : bool).

Definition is_final (ev : Event) : bool :=
  match ev with
  | StatusUpdate _ _ _ _ f => f
  | ArtifactUpdate _ _ _ f => f
  end.

Definition event_state (ev : Event) : option TaskState :=
  match ev with
  | StatusUpdate _ _ s _ _ => Some s
  | ArtifactUpdate _ _ _ _ => None
  end.

(** [a2a.utils.new_agent_text_message(text, context_id, task_id)]. *)
Definition new_agent_text_message
    (text context_id : string) (task_id : TaskId) : Message :=
  {| role := agent;
     parts := [TextPart text];
     m_context_id := context_id;
     m_task_id := Some task_id |}.

Definition message_text (m : Message) : list string :=
  map (fun p => match p with TextPart t => t end) (parts m).

End A2A.
Export A2A.

(** ** Effects: exceptions, and state with exceptions

    [Exc A] is a value or a raised exception.  A computation [Run S A] reads
    and updates a state [S] and either returns or raises; the state reached
    when it raises is kept, as a Python exception leaves the objects mutated
    so far as they are. *)

(** The error taxonomy of the spec, section 7, and the two Python
    exceptions a dict access can raise. *)
Inductive Err :=
| NotFoundError
| InvalidTransitionError
| TaskClosedError
| TaskBusyError
| BusinessLogicError (diagnostic : string)
| KeyError (key : string)
| AttributeError (attr : string).

Definition Exc (A : Type) : Type := Err + A.

#[global] Instance Exc_ret : MRet Exc := fun A (a : A) => inr a.

#[global] Instance Exc_bind : MBind Exc :=
  fun A B (f : A -> Exc B) (m : Exc A) =>
    match m with
    | inl e => inl e
    | inr a => f a
    end.

#[global] Instance Exc_throw : MThrow Err Exc := fun A (e : Err) => inl e.

Definition Run (S A : Type) : Type := S -> Exc A * S.

#[global] Instance Run_ret {S} : MRet (Run S) :=
  fun A (a : A) (s : S) => (inr a, s).

#[global] Instance Run_bind {S} : MBind (Run S) :=
  fun A B (f : A -> Run S B) (m : Run S A) (s : S) =>
    match m s with
    | (inl e, s') => (inl e, s')
    | (inr a, s') => f a s'
    end.

#[global] Instance Run_throw {S} : MThrow Err (Run S) :=
  fun A (e : Err) (s : S) => (inl e, s).

(** A computation that does not touch the state: an exception it raises
    propagates. *)
Definition lift {S A} (r : Exc A) : Run S A := fun s => (r, s).

(** ** The task updater the executor drives

    [TaskUpdater(event_queue, task_id, context_id)] of the a2a package.  The
    object is the pair of identifiers; the queue it pushes to is part of the
    state [S] of the computation.  The executor is written against this
    interface only. *)
Record Updater := {
  u_task_id : TaskId;
  u_context_id : string
}.

(** The methods of [TaskUpdater]; the source calls all but [failed]. *)
Class TaskUpdater (S : Type) := {
  submit : Updater -> Run S unit;
  start_work : Updater -> Run S unit;
  requires_input : Updater -> Message -> Run S unit;
  add_artifact : Updater -> list Part -> Run S unit;
  complete : Updater -> Message -> Run S unit;
  failed : Updater -> Message -> Run S unit;
  cancel : Updater -> Run S unit
}.

(** [RequestContext] of the a2a package, as far as the executor reads it:
    [get_user_input ()] (no text at all is [None]), [current_task],
    [task_id] and [context_id]. *)
Record RequestContext := {
  get_user_input : option string;
  current_task : option Task;
  task_id : TaskId;
  context_id : string
}.

(** ** A2A agent executor (bridges protocol and business logic) *)
Module TravelAgentExecutor.

(** The business logic held in [self.agent]: it returns its result dict or
    raises.  The dict has the three keys the docstring of [process]
    declares; a logic whose dict may lack keys is a [DictAgent] below. *)
Definition Agent := string -> string -> Exc TravelAgent.result.

(** [self.agent = TravelAgent()]. *)
Definition agent : Agent :=
  fun user_input context_id => inr (TravelAgent.process user_input context_id).

Definition nl : string := String (ascii_of_nat 10) EmptyString.

(** [booking.get("type")]: an attribute access, which fails on [None]. *)
Definition get (booking : option TravelAgent.dict) (key : string)
  : Exc (option string) :=
  match booking with
  | None => mthrow (AttributeError "get")
  | Some b => mret (b !! key)
  end.

(** [booking[key]]: fails on [None] and on a missing key. *)
Definition getitem (booking : option TravelAgent.dict) (key : string)
  : Exc string :=
  match booking with
  | None => mthrow (AttributeError "__getitem__")
  | Some b =>
      match b !! key with
      | Some v => mret v
      | None => mthrow (KeyError key)
      end
  end.

Definition hotel_text (booking : option TravelAgent.dict) : Exc string :=
  ty ← getitem booking "type";
  hotel ← getitem booking "hotel";
  location ← getitem booking "location";
  check_in ← getitem booking "check_in";
  check_out ← getitem booking "check_out";
  room ← getitem booking "room";
  st ← getitem booking "status";
  mret ("Booking Confirmation" ++ nl ++
        "====================" ++ nl ++
        "Type        : " ++ ty ++ nl ++
        "Hotel       : " ++ hotel ++ nl ++
        "Location    : " ++ location ++ nl ++
        "Check-in    : " ++ check_in ++ nl ++
        "Check-out   : " ++ check_out ++ nl ++
        "Room        : " ++ room ++ nl ++
        "Status      : " ++ st).

Definition flight_text (booking : option TravelAgent.dict) : Exc string :=
  ty ← getitem booking "type";
  destination ← getitem booking "destination";
  departure ← getitem booking "departure";
  airline ← getitem booking "airline";
  flight ← getitem booking "flight";
  st ← getitem booking "status";
  mret ("Booking Confirmation" ++ nl ++
        "====================" ++ nl ++
        "Type        : " ++ ty ++ nl ++
        "Destination : " ++ destination ++ nl ++
        "Dates       : " ++ departure ++ nl ++
        "Airline     : " ++ airline ++ nl ++
        "Flight      : " ++ flight ++ nl ++
        "Status      : " ++ st).

(** The completion branch's [artifact_text]. *)
Definition artifact_text (booking : option TravelAgent.dict) : Exc string :=
  ty ← get booking "type";
  if decide (ty = Some "Hotel") then hotel_text booking else flight_text booking.

(** [execute], for any business logic in [self.agent].  Logging is left
    out. *)
Definition execute_with {S} `{TaskUpdater S}
    (agent : Agent) (context : RequestContext) : Run S unit :=
  let user_input :=
    match get_user_input context with
    | None | Some EmptyString => EmptyString
    | Some s => s
    end in
  let task := current_task context in
  let updater := {| u_task_id := task_id context;
                    u_context_id := context_id context |} in
  (if task is None then submit updater else mret tt) ;;
  start_work updater ;;
  result ← lift (agent user_input (context_id context));
  if TravelAgent.needs_input result then
    requires_input updater
      (new_agent_text_message (TravelAgent.response result)
         (context_id context) (task_id context))
  else
    text ← lift (artifact_text (TravelAgent.booking result));
    add_artifact updater [TextPart text] ;;
    complete updater
      (new_agent_text_message (TravelAgent.response result)
         (context_id context) (task_id context)).

Definition execute {S} `{TaskUpdater S} (context : RequestContext) : Run S unit :=
  execute_with agent context.

Definition cancel {S} `{TaskUpdater S} (context : RequestContext) : Run S unit :=
  let updater := {| u_task_id := task_id context;
                    u_context_id := context_id context |} in
  cancel updater.

(** The result dict of a business logic that does not keep to the
    docstring of [process]: any of the three keys may be missing ([None]).
    The key [booking], when present, holds a dict or [None]. *)
Record result_dict := ResultDict {
  d_response : option string;
  d_needs_input : option bool;
  d_booking : option (option TravelAgent.dict)
}.

Definition DictAgent := string -> string -> Exc result_dict.

(** [result[key]]: fails on a missing key. *)
Definition subscript {S A} (key : string) (v : option A) : Run S A :=
  match v with
  | Some a => mret a
  | None => mthrow (KeyError key)
  end.

(** [execute] for such a business logic.  Each key of the result is read
    where the source reads it: [needs_input] in the test, [response] while
    the arguments of [requires_input] are built, [booking] at the start of
    the completion branch, and [response] again only once [add_artifact]
    has been awaited. *)
Definition execute_dict {S} `{TaskUpdater S}
    (agent : DictAgent) (context : RequestContext) : Run S unit :=
  let user_input :=
    match get_user_input context with
    | None | Some EmptyString => EmptyString
    | Some s => s
    end in
  let task := current_task context in
  let updater := {| u_task_id := task_id context;
                    u_context_id := context_id context |} in
  (if task is None then submit updater else mret tt) ;;
  start_work updater ;;
  result ← lift (agent user_input (context_id context));
  needs_input ← subscript "needs_input" (d_needs_input result);
  if (needs_input : bool) then
    response ← subscript "response" (d_response result);
    requires_input updater
      (new_agent_text_message response
         (context_id context) (task_id context))
  else
    booking ← subscript "booking" (d_booking result);
    text ← lift (artifact_text booking);
    add_artifact updater [TextPart text] ;;
    response ← subscript "response" (d_response result);
    complete updater
      (new_agent_text_message response
         (context_id context) (task_id context)).

(** The dict of a result that has the three keys. *)
Definition as_dict (r : TravelAgent.result) : result_dict :=
  {| d_response := Some (TravelAgent.response r);
     d_needs_input := Some (TravelAgent.needs_input r);
     d_booking := Some (TravelAgent.booking r) |}.

Definition on_dict (agent : Agent) : DictAgent :=
  fun user_input context_id =>
    match agent user_input context_id with
    | inl e => inl e
    | inr r => inr (as_dict r)
    end.

End TravelAgentExecutor.

(** ** The event queue

    What a [TaskUpdater] pushes, with nothing checked: the updater object
    holds the queue and the two identifiers only. *)
Definition EventQueue := list Event.

Definition enqueue_event (ev : Event) : Run EventQueue unit :=
  fun q => (inr tt, (q ++ [ev])%list).

(** Modelled from the spec: the [final] flag [TaskUpdater] (a2a package)
    puts on a status event.  Section 4.2 sets it on INPUT_REQUIRED and on
    the status that ends a task. *)
Definition status_final (s : TaskState) : bool :=
  match s with
  | INPUT_REQUIRED | COMPLETED | CANCELED | FAILED => true
  | SUBMITTED | WORKING => false
  end.

(** Modelled from the spec: the one [StatusUpdate] a transition call of
    [TaskUpdater] (a2a package) pushes, section 4.2. *)
Definition status_event (u : Updater) (s : TaskState) (msg : option Message)
  : Event :=
  StatusUpdate (u_task_id u) (u_context_id u) s msg (status_final s).

(** Modelled from the spec: the [ArtifactUpdate] that [add_artifact] of
    [TaskUpdater] (a2a package) pushes; it is never final (section 4.2). *)
Definition artifact_event (u : Updater) (ps : list Part) : Event :=
  ArtifactUpdate (u_task_id u) (u_context_id u) {| a_parts := ps |} false.

(** Modelled from the spec: the methods of [TaskUpdater] (a2a package) as
    producers of events, one event per call (section 4.2). *)
#[global] Instance QueueUpdater : TaskUpdater EventQueue := {|
  submit u := enqueue_event (status_event u SUBMITTED None);
  start_work u := enqueue_event (status_event u WORKING None);
  requires_input u m := enqueue_event (status_event u INPUT_REQUIRED (Some m));
  add_artifact u ps := enqueue_event (artifact_event u ps);
  complete u m := enqueue_event (status_event u COMPLETED (Some m));
  failed u m := enqueue_event (status_event u FAILED (Some m));
  cancel u := enqueue_event (status_event u CANCELED None)
|}.

(** ** The task state machine

    The state machine of section 4.2 and the store's [append] of section
    4.1, which the a2a package implements behind [TaskUpdater].  The state
    is the record of the task addressed ([None] until the task has been
    created by [submit]) and the queue of the current invocation. *)
Module Machine.

Record World := {
  w_task : option Task;
  w_queue : EventQueue
}.

Inductive Op :=
| Submit | StartWork | RequiresInput | Complete | Fail | Cancel.

Definition target (op : Op) : TaskState :=
  match op with
  | Submit => SUBMITTED
  | StartWork => WORKING
  | RequiresInput => INPUT_REQUIRED
  | Complete => COMPLETED
  | Fail => FAILED
  | Cancel => CANCELED
  end.

(** Modelled from the spec: the table of legal transitions of section 4.2,
    enforced by the a2a package.  [SUBMITTED] is entered at creation only,
    so [Submit] is legal exactly when there is no record yet. *)
Definition legal (from : option TaskState) (op : Op) : bool :=
  match from, op with
  | None, Submit => true
  | Some SUBMITTED, StartWork => true
  | Some INPUT_REQUIRED, StartWork => true
  | Some WORKING, RequiresInput => true
  | Some WORKING, Complete => true
  | Some WORKING, Cancel => true
  | Some SUBMITTED, Cancel => true
  | Some INPUT_REQUIRED, Cancel => true
  | Some WORKING, Fail => true
  | _, _ => false
  end.

Definition current_state (w : World) : option TaskState :=
  (fun t => state (status t)) <$> w_task w.

(** The record a creating transition brings into being. *)
Definition create (u : Updater) (s : TaskStatus) : Task :=
  {| id := u_task_id u; t_context_id := u_context_id u;
     status := s; status_history := []; artifacts := [] |}.

(** The record after a legal transition: the prior status goes to the end
    of the history and the new status is set. *)
Definition advance (s : TaskStatus) (t : Task) : Task :=
  {| id := id t; t_context_id := t_context_id t;
     status := s;
     status_history := (status_history t ++ [status t])%list;
     artifacts := artifacts t |}.

Definition attach (a : Artifact) (t : Task) : Task :=
  {| id := id t; t_context_id := t_context_id t;
     status := status t;
     status_history := status_history t;
     artifacts := (artifacts t ++ [a])%list |}.

Definition set_status (u : Updater) (s : TaskStatus) (t : option Task) : Task :=
  match t with
  | None => create u s
  | Some t => advance s t
  end.

(** Modelled from the spec: a transition call (section 4.2, a2a package).
    A legal one appends the prior status to the history, sets the new
    status and pushes one event; any other fails with
    [InvalidTransitionError] and leaves the task unchanged. *)
Definition transition (op : Op) (u : Updater) (msg : option Message)
  : Run World unit :=
  fun w =>
    if legal (current_state w) op then
      (inr tt,
       {| w_task := Some (set_status u {| state := target op; message := msg |}
                            (w_task w));
          w_queue := (w_queue w ++ [status_event u (target op) msg])%list |})
    else (inl InvalidTransitionError, w).

(** Modelled from the spec: [append] of an artifact (section 4.1, a2a
    package), refused on a terminal task with [TaskClosedError]. *)
Definition append_artifact (u : Updater) (ps : list Part) : Run World unit :=
  fun w =>
    match w_task w with
    | None => (inl NotFoundError, w)
    | Some t =>
        if is_terminal (state (status t)) then (inl TaskClosedError, w)
        else
          (inr tt,
           {| w_task := Some (attach {| a_parts := ps |} t);
              w_queue := (w_queue w ++ [artifact_event u ps])%list |})
    end.

(** Modelled from the spec: the methods of [TaskUpdater] (a2a package) as
    operations of the state machine of section 4.2. *)
#[global] Instance MachineUpdater : TaskUpdater World := {|
  submit u := transition Submit u None;
  start_work u := transition StartWork u None;
  requires_input u m := transition RequiresInput u (Some m);
  add_artifact u ps := append_artifact u ps;
  complete u m := transition Complete u (Some m);
  failed u m := transition Fail u (Some m);
  cancel u := transition Cancel u None
|}.

End Machine.

(** ** Store and dispatch

    The store of section 4.1, the dispatcher of section 4.4 and [cancelTask]
    of section 6, which the request handler and the task store of the a2a
    package implement.  Steps 3, 4, 6 and 7 of the dispatch algorithm are
    the executor's [execute] above. *)
Module Engine.

(** Modelled from the spec: the store of section 4.1 (a2a package): the
    task records, the task ids of each context in creation order, the
    event channel of each task's current invocation, and the counter that
    mints identifiers. *)
Record Store := {
  tasks : gmap TaskId Task;
  contexts : gmap string (list TaskId);
  channels : gmap TaskId EventQueue;
  next_id : TaskId
}.

Definition empty : Store :=
  {| tasks := ∅; contexts := ∅; channels := ∅; next_id := 0 |}.

(** Every identifier handed out so far is below the counter. *)
Definition store_wf (st : Store) : Prop :=
  forall tid t, tasks st !! tid = Some t -> tid < next_id st /\ id t = tid.

(** Modelled from the spec: [getOrCreate] of section 4.1 (a2a package).
    It returns the identifier and, when the task existed already, its
    record; with no task id it mints a fresh identifier and registers it
    under the context.  The record of a created task is brought into being
    in state SUBMITTED by the [submit] that [execute] issues first. *)
Definition getOrCreate (context_id : string) (task_id : option TaskId)
  : Run Store (TaskId * option Task) :=
  fun st =>
    match task_id with
    | Some tid =>
        match tasks st !! tid with
        | Some t => (inr (tid, Some t), st)
        | None => (inl NotFoundError, st)
        end
    | None =>
        let tid := next_id st in
        (inr (tid, None),
         {| tasks := tasks st;
            contexts :=
              <[context_id := (default [] (contexts st !! context_id) ++ [tid])%list]>
                (contexts st);
            channels := channels st;
            next_id := S tid |})
    end.

(** [RequestContext.get_user_input] (a2a package): the text parts of the
    message, one per line. *)
Definition user_input_of (m : Message) : string :=
  String.concat TravelAgentExecutor.nl (message_text m).

(** Modelled from the spec: the supervision of one executor call (section
    4.4, a2a package): it runs on the record of the addressed task with a
    fresh channel, and the record and the events are written back. *)
Definition supervise (tid : TaskId) (cur : option Task)
    (body : Run Machine.World unit) : Run Store Task :=
  fun st =>
    let '(r, w) := body {| Machine.w_task := cur; Machine.w_queue := [] |} in
    let st' :=
      {| tasks := match Machine.w_task w with
                  | Some t => <[tid := t]> (tasks st)
                  | None => tasks st
                  end;
         contexts := contexts st;
         channels := <[tid := Machine.w_queue w]> (channels st);
         next_id := next_id st |} in
    match r, Machine.w_task w with
    | inl e, _ => (inl e, st')
    | inr _, Some t => (inr t, st')
    | inr _, None => (inl NotFoundError, st')
    end.

(** The request context the executor is given for message [m]. *)
Definition request_context (m : Message) (tid : TaskId) (cur : option Task)
  : RequestContext :=
  {| get_user_input := Some (user_input_of m);
     current_task := cur;
     task_id := tid;
     context_id := m_context_id m |}.

(** Modelled from the spec: [handle] of section 4.4 (the request handler
    of the a2a package): resolve the task, refuse a terminal one with
    [TaskClosedError], otherwise run the executor. *)
Definition handle_with (agent : TravelAgentExecutor.Agent) (m : Message)
  : Run Store Task :=
  '(tid, cur) ← getOrCreate (m_context_id m) (m_task_id m);
  match cur with
  | Some t =>
      if is_terminal (state (status t)) then mthrow TaskClosedError
      else mret tt
  | None => mret tt
  end ;;
  supervise tid cur
    (TravelAgentExecutor.execute_with agent (request_context m tid cur)).

Definition handle (m : Message) : Run Store Task :=
  handle_with TravelAgentExecutor.agent m.

(** Modelled from the spec: the acknowledgment of [cancelTask], section 6. *)
Inductive Ack := Canceled | NoOp.

(** Modelled from the spec: [cancelTask] of section 6 (the request handler
    of the a2a package): unknown ids fail with [NotFoundError], a terminal
    task is a no-op reported as such, otherwise the executor's [cancel]
    runs. *)
Definition cancelTask (tid : TaskId) : Run Store Ack :=
  t ← (fun st =>
         match tasks st !! tid with
         | Some t => (inr t, st)
         | None => (inl NotFoundError, st)
         end);
  if is_terminal (state (status t)) then mret NoOp
  else
    supervise tid (Some t)
      (TravelAgentExecutor.cancel
         {| get_user_input := None;
            current_task := Some t;
            task_id := tid;
            context_id := t_context_id t |}) ;;
    mret Canceled.

(** A user message carrying one text part. *)
Definition user_message (text context_id : string) (task_id : option TaskId)
  : Message :=
  {| role := user; parts := [TextPart text];
     m_context_id := context_id; m_task_id := task_id |}.

(** The store once an identifier has been minted in a context. *)
Definition minted (context_id : string) (st : Store) : Store :=
  snd (getOrCreate context_id None st).

(** The store once the record of [tid] and the events of its invocation
    have been written back. *)
Definition written (tid : TaskId) (t : Task) (evs : EventQueue) (st : Store)
  : Store :=
  {| tasks := <[tid := t]> (tasks st);
     contexts := contexts st;
     channels := <[tid := evs]> (channels st);
     next_id := next_id st |}.

End Engine.


(** ** Vocabulary of the statements *)

(** The states a task has been through, oldest first. *)
Definition lifecycle (t : Task) : list TaskState :=
  (map state (status_history t) ++ [state (status t)])%list.

(** What [execute] reads from the request. *)
Definition input_of (ctx : RequestContext) : string :=
  match get_user_input ctx with
  | None | Some EmptyString => EmptyString
  | Some s => s
  end.

Definition updater_of (ctx : RequestContext) : Updater :=
  {| u_task_id := task_id ctx; u_context_id := context_id ctx |}.

Definition reply (ctx : RequestContext) (text : string) : Message :=
  new_agent_text_message text (context_id ctx) (task_id ctx).

(** The events of the two opening calls: [submit] when there is no current
    task, then [start_work]. *)
Definition opening (ctx : RequestContext) : list Event :=
  ((if current_task ctx is None
    then [status_event (updater_of ctx) SUBMITTED None] else []) ++
   [status_event (updater_of ctx) WORKING None])%list.

(** The events of the closing calls of each outcome branch. *)
Definition asking (ctx : RequestContext) (text : string) : list Event :=
  [status_event (updater_of ctx) INPUT_REQUIRED (Some (reply ctx text))].

Definition completing (ctx : RequestContext) (artifact text : string)
  : list Event :=
  [artifact_event (updater_of ctx) [TextPart artifact];
   status_event (updater_of ctx) COMPLETED (Some (reply ctx text))].

(** The record once the opening calls have been applied. *)
Definition started (ctx : RequestContext) : Task :=
  Machine.advance {| state := WORKING; message := None |}
    (match current_task ctx with
     | None => Machine.create (updater_of ctx)
                 {| state := SUBMITTED; message := None |}
     | Some t => t
     end).

(** [start_work] is legal on the current task. *)
Definition startable (cur : option Task) : bool :=
  match cur with
  | None => true
  | Some t => Machine.legal (Some (state (status t))) Machine.StartWork
  end.

Definition hotel_confirmation : string :=
  "Booking Confirmation" ++ TravelAgentExecutor.nl ++
  "====================" ++ TravelAgentExecutor.nl ++
  "Type        : Hotel" ++ TravelAgentExecutor.nl ++
  "Hotel       : Le Ciel Paris Airport" ++ TravelAgentExecutor.nl ++
  "Location    : Near Charles de Gaulle Airport, Paris" ++ TravelAgentExecutor.nl ++
  "Check-in    : June 15, 2026" ++ TravelAgentExecutor.nl ++
  "Check-out   : June 22, 2026" ++ TravelAgentExecutor.nl ++
  "Room        : Deluxe King" ++ TravelAgentExecutor.nl ++
  "Status      : CONFIRMED".

Definition flight_confirmation (departure : string) : string :=
  "Booking Confirmation" ++ TravelAgentExecutor.nl ++
  "====================" ++ TravelAgentExecutor.nl ++
  "Type        : Flight" ++ TravelAgentExecutor.nl ++
  "Destination : Paris" ++ TravelAgentExecutor.nl ++
  "Dates       : " ++ departure ++ TravelAgentExecutor.nl ++
  "Airline     : SkyHigh Airlines" ++ TravelAgentExecutor.nl ++
  "Flight      : SH-1042" ++ TravelAgentExecutor.nl ++
  "Status      : CONFIRMED".

Definition hotel_reply : string :=
  "Your hotel has been booked! Here are the details:".

Definition flight_reply : string :=
  "Your flight has been booked! Here are the details:".

(** The keys the artifact formatting reads from a booking. *)
Definition hotel_keys : list string :=
  ["type"; "hotel"; "location"; "check_in"; "check_out"; "room"; "status"].

Definition flight_keys : list string :=
  ["type"; "destination"; "departure"; "airline"; "flight"; "status"].

Definition has_keys (b : TravelAgent.dict) (ks : list string) : Prop :=
  Forall (fun k => is_Some (b !! k)) ks.

(** What one supervised [execute] leaves, by the result [r] of the business
    logic: the task returned (or the exception of the artifact formatting)
    and the store with the record and the events written back. *)
Definition asked (ctx : RequestContext) (r : TravelAgent.result) : Task :=
  Machine.advance
    {| state := INPUT_REQUIRED;
       message := Some (reply ctx (TravelAgent.response r)) |}
    (started ctx).

Definition finished (ctx : RequestContext) (r : TravelAgent.result)
    (text : string) : Task :=
  Machine.advance
    {| state := COMPLETED;
       message := Some (reply ctx (TravelAgent.response r)) |}
    (Machine.attach {| a_parts := [TextPart text] |} (started ctx)).

Definition outcome (ctx : RequestContext) (r : TravelAgent.result)
    (st : Engine.Store) : Exc Task * Engine.Store :=
  if TravelAgent.needs_input r then
    (inr (asked ctx r),
     Engine.written (task_id ctx) (asked ctx r)
       (opening ctx ++ asking ctx (TravelAgent.response r))%list st)
  else
    match TravelAgentExecutor.artifact_text (TravelAgent.booking r) with
    | inl e =>
        (inl e, Engine.written (task_id ctx) (started ctx) (opening ctx) st)
    | inr text =>
        (inr (finished ctx r text),
         Engine.written (task_id ctx) (finished ctx r text)
           (opening ctx ++ completing ctx text (TravelAgent.response r))%list
           st)
    end.

(** The store the first scenario leaves, and the flight task in it. *)
Definition scenario1_store : Engine.Store :=
  snd (Engine.handle (Engine.user_message "Book a flight to Paris" "ctx" None)
         Engine.empty).

Definition scenario1_task : Task :=
  Machine.advance
    {| state := INPUT_REQUIRED;
       message := Some (new_agent_text_message TravelAgent.ask_dates "ctx" 0) |}
    (Machine.advance {| state := WORKING; message := None |}
       (Machine.create {| u_task_id := 0; u_context_id := "ctx" |}
          {| state := SUBMITTED; message := None |})).

(** The store the follow-up leaves, and the completed flight task in it. *)
Definition scenario2_store : Engine.Store :=
  snd (Engine.handle
         (Engine.user_message "June 15 - June 22, 2026" "ctx" (Some 0))
         scenario1_store).

Definition scenario2_task : Task :=
  Machine.advance
    {| state := COMPLETED;
       message := Some (new_agent_text_message flight_reply "ctx" 0) |}
    (Machine.attach
       {| a_parts := [TextPart (flight_confirmation "June 15 - June 22, 2026")] |}
       (Machine.advance {| state := WORKING; message := None |}
          scenario1_task)).

(** The request of the first scenario. *)
Definition first_request : RequestContext :=
  {| get_user_input := Some "Book a flight to Paris";
     current_task := None; task_id := 0; context_id := "ctx" |}.

(** ** Vocabulary for the properties of the text operations *)

(** Every code point of [s] is whitespace; so for the empty text. *)
Fixpoint all_space (s : string) : bool :=
  match s with
  | EmptyString => true
  | String c t => PyStr.is_space c && all_space t
  end.

(** No code point of [s] is whitespace. *)
Fixpoint no_space (s : string) : bool :=
  match s with
  | EmptyString => true
  | String c t => negb (PyStr.is_space c) && no_space t
  end.

Definition first_char (s : string) : option ascii :=
  match s with
  | EmptyString => None
  | String c _ => Some c
  end.

Fixpoint last_char (s : string) : option ascii :=
  match s with
  | EmptyString => None
  | String c EmptyString => Some c
  | String _ t => last_char t
  end.

(** The text neither starts nor ends with whitespace. *)
Definition trimmed (s : string) : Prop :=
  (forall c, first_char s = Some c -> PyStr.is_space c = false) /\
  (forall c, last_char s = Some c -> PyStr.is_space c = false).

(** The request carries no text, or whitespace only. *)
Definition no_text (ctx : RequestContext) : bool :=
  match get_user_input ctx with
  | None => true
  | Some s => all_space s
  end.

(** A word of the date detection: not empty and free of whitespace. *)
Definition solid (d : string) : bool :=
  match d with
  | EmptyString => false
  | String _ _ => no_space d
  end.

(** ** Vocabulary for the properties of the executor *)

(** The first key of [ks], in reading order, that the booking lacks. *)
Fixpoint first_missing (b : TravelAgent.dict) (ks : list string)
  : option string :=
  match ks with
  | [] => None
  | k :: ks =>
      match b !! k with
      | None => Some k
      | Some _ => first_missing b ks
      end
  end.

(** The keys the artifact formatting reads from [b], in reading order. *)
Definition keys_read (b : TravelAgent.dict) : list string :=
  if decide (b !! "type" = Some "Hotel") then hotel_keys else flight_keys.

(** A business logic that returns [r] on every input. *)
Definition agent_returning (r : TravelAgent.result)
  : TravelAgentExecutor.Agent :=
  fun _ _ => inr r.

(** A business logic that returns the dict [r] on every input. *)
Definition dict_agent_returning (r : TravelAgentExecutor.result_dict)
  : TravelAgentExecutor.DictAgent :=
  fun _ _ => inr r.




Definition is_artifact (ev : Event) : bool :=
  match ev with
  | StatusUpdate _ _ _ _ _ => false
  | ArtifactUpdate _ _ _ _ => true
  end.


(** The request [ctx] with another current task. *)
Definition with_task (cur : option Task) (ctx : RequestContext)
  : RequestContext :=
  {| get_user_input := get_user_input ctx;
     current_task := cur;
     task_id := task_id ctx;
     context_id := context_id ctx |}.

(** The statuses of the status events of a queue, in order. *)
Definition statuses (q : EventQueue) : list TaskState :=
  omap event_state q.

(** Case analysis on what the business logic returns and on the artifact
    formatting, closing each case by reassociating the queue. *)
Ltac close_run := simpl; rewrite <- ?app_assoc; reflexivity.

Ltac run_outcomes agent inp cid :=
  let e := fresh "e" in
  let r := fresh "r" in
  destruct (agent inp cid) as [e|r]; simpl;
  [ close_run
  | destruct (TravelAgent.needs_input r); simpl;
    [ close_run
    | destruct (TravelAgentExecutor.artifact_text (TravelAgent.booking r));
      close_run ] ].

(** ** The business logic *)

Lemma process_cases user_input context_id :
  let text := PyStr.lower user_input in
  TravelAgent.process user_input context_id =
    if PyStr.contains "hotel" text then
      TravelAgent.Result hotel_reply false (Some TravelAgent.hotel_booking)
    else if TravelAgent.has_date text then
      TravelAgent.Result flight_reply false
        (Some (TravelAgent.flight_booking (PyStr.strip user_input)))
    else TravelAgent.Result TravelAgent.ask_dates true None.
Proof. reflexivity. Qed.

Lemma hotel_artifact_text :
  TravelAgentExecutor.artifact_text (Some TravelAgent.hotel_booking)
  = inr hotel_confirmation.
Proof. vm_compute. reflexivity. Qed.

Lemma flight_artifact_text departure :
  TravelAgentExecutor.artifact_text (Some (TravelAgent.flight_booking departure))
  = inr (flight_confirmation departure).
Proof. vm_compute. reflexivity. Qed.

(** ** The executor on the event queue *)

Lemma execute_with_queue (agent : TravelAgentExecutor.Agent)
    (ctx : RequestContext) (q : EventQueue) :
  TravelAgentExecutor.execute_with agent ctx q =
  match agent (input_of ctx) (context_id ctx) with
  | inl e => (inl e, (q ++ opening ctx)%list)
  | inr r =>
      if TravelAgent.needs_input r then
        (inr tt, (q ++ opening ctx ++ asking ctx (TravelAgent.response r))%list)
      else
        match TravelAgentExecutor.artifact_text (TravelAgent.booking r) with
        | inl e => (inl e, (q ++ opening ctx)%list)
        | inr text =>
            (inr tt,
             (q ++ opening ctx ++
              completing ctx text (TravelAgent.response r))%list)
        end
  end.
Proof.
  unfold TravelAgentExecutor.execute_with, opening, asking, completing,
    input_of, updater_of, reply.
  destruct ctx as [inp cur tid cid]; simpl.
  set (u := {| u_task_id := tid; u_context_id := cid |}).
  set (inp' := match inp with
               | Some (String a s0 as s) => s
               | _ => EmptyString
               end).
  destruct cur as [t|];
    unfold mbind, Run_bind, mret, Run_ret, lift, enqueue_event; simpl;
    run_outcomes agent inp' cid.
Qed.

(** ** The executor on the state machine *)

Lemma execute_with_machine (agent : TravelAgentExecutor.Agent)
    (ctx : RequestContext) (q : EventQueue) :
  startable (current_task ctx) = true ->
  TravelAgentExecutor.execute_with agent ctx
    {| Machine.w_task := current_task ctx; Machine.w_queue := q |} =
  match agent (input_of ctx) (context_id ctx) with
  | inl e =>
      (inl e, {| Machine.w_task := Some (started ctx);
                 Machine.w_queue := (q ++ opening ctx)%list |})
  | inr r =>
      if TravelAgent.needs_input r then
        (inr tt,
         {| Machine.w_task :=
              Some (Machine.advance
                      {| state := INPUT_REQUIRED;
                         message := Some (reply ctx (TravelAgent.response r)) |}
                      (started ctx));
            Machine.w_queue :=
              (q ++ opening ctx ++ asking ctx (TravelAgent.response r))%list |})
      else
        match TravelAgentExecutor.artifact_text (TravelAgent.booking r) with
        | inl e =>
            (inl e, {| Machine.w_task := Some (started ctx);
                       Machine.w_queue := (q ++ opening ctx)%list |})
        | inr text =>
            (inr tt,
             {| Machine.w_task :=
                  Some (Machine.advance
                          {| state := COMPLETED;
                             message :=
                               Some (reply ctx (TravelAgent.response r)) |}
                          (Machine.attach {| a_parts := [TextPart text] |}
                             (started ctx)));
                Machine.w_queue :=
                  (q ++ opening ctx ++
                   completing ctx text (TravelAgent.response r))%list |})
        end
  end.
Proof.
  unfold TravelAgentExecutor.execute_with, opening, asking, completing,
    input_of, updater_of, reply, started, startable.
  destruct ctx as [inp cur tid cid]; simpl.
  set (u := {| u_task_id := tid; u_context_id := cid |}).
  set (inp' := match inp with
               | Some (String a s0 as s) => s
               | _ => EmptyString
               end).
  intros Hstart.
  destruct cur as [t|].
  - destruct t as [i c [s m] h a]; simpl in Hstart.
    destruct s; try discriminate Hstart;
      unfold mbind, Run_bind, mret, Run_ret, lift; simpl;
      unfold Machine.transition, Machine.current_state; simpl;
      run_outcomes agent inp' cid.
  - unfold mbind, Run_bind, mret, Run_ret, lift; simpl;
      unfold Machine.transition, Machine.current_state; simpl;
      run_outcomes agent inp' cid.
Qed.

(** On a task that [start_work] is not legal on, nothing is applied. *)
Lemma execute_with_refused (agent : TravelAgentExecutor.Agent)
    (ctx : RequestContext) (t : Task) (q : EventQueue) :
  current_task ctx = Some t ->
  Machine.legal (Some (state (status t))) Machine.StartWork = false ->
  TravelAgentExecutor.execute_with agent ctx
    {| Machine.w_task := Some t; Machine.w_queue := q |} =
  (inl InvalidTransitionError,
   {| Machine.w_task := Some t; Machine.w_queue := q |}).
Proof.
  intros Hcur Hlegal.
  unfold TravelAgentExecutor.execute_with. rewrite Hcur.
  unfold mbind, Run_bind, mret, Run_ret; simpl.
  unfold Machine.transition, Machine.current_state; simpl.
  simpl in Hlegal. rewrite Hlegal. reflexivity.
Qed.

Lemma terminal_not_legal (s : TaskState) (op : Machine.Op) :
  is_terminal s = true -> Machine.legal (Some s) op = false.
Proof. destruct s, op; simpl; congruence. Qed.

Lemma lifecycle_create u s : lifecycle (Machine.create u s) = [state s].
Proof. reflexivity. Qed.

Lemma lifecycle_advance s t :
  lifecycle (Machine.advance s t) = (lifecycle t ++ [state s])%list.
Proof. unfold lifecycle; simpl. rewrite map_app. reflexivity. Qed.

Lemma lifecycle_attach a t : lifecycle (Machine.attach a t) = lifecycle t.
Proof. reflexivity. Qed.

(** ** The dispatcher *)

Lemma handle_with_created (agent : TravelAgentExecutor.Agent) (m : Message)
    (st : Engine.Store) :
  m_task_id m = None ->
  Engine.handle_with agent m st =
  Engine.supervise (Engine.next_id st) None
    (TravelAgentExecutor.execute_with agent
       (Engine.request_context m (Engine.next_id st) None))
    (Engine.minted (m_context_id m) st).
Proof.
  intros Hm. unfold Engine.handle_with, Engine.minted, Engine.getOrCreate.
  rewrite Hm. reflexivity.
Qed.

Lemma handle_with_resumed (agent : TravelAgentExecutor.Agent) (m : Message)
    (st : Engine.Store) (tid : TaskId) (t : Task) :
  m_task_id m = Some tid ->
  Engine.tasks st !! tid = Some t ->
  is_terminal (state (status t)) = false ->
  Engine.handle_with agent m st =
  Engine.supervise tid (Some t)
    (TravelAgentExecutor.execute_with agent
       (Engine.request_context m tid (Some t))) st.
Proof.
  intros Hm Ht Hterm. unfold Engine.handle_with, Engine.getOrCreate.
  rewrite Hm. unfold mbind at 1, Run_bind. rewrite Ht.
  unfold mbind, Run_bind. rewrite Hterm. reflexivity.
Qed.

Lemma handle_with_closed (agent : TravelAgentExecutor.Agent) (m : Message)
    (st : Engine.Store) (tid : TaskId) (t : Task) :
  m_task_id m = Some tid ->
  Engine.tasks st !! tid = Some t ->
  is_terminal (state (status t)) = true ->
  Engine.handle_with agent m st = (inl TaskClosedError, st).
Proof.
  intros Hm Ht Hterm. unfold Engine.handle_with, Engine.getOrCreate.
  rewrite Hm. unfold mbind at 1, Run_bind. rewrite Ht.
  unfold mbind, Run_bind. rewrite Hterm. reflexivity.
Qed.

(** A supervised run that returns writes its record and its events back. *)
Lemma supervise_returns (tid : TaskId) (cur : option Task)
    (body : Run Machine.World unit) (t : Task) (evs : EventQueue)
    (st : Engine.Store) :
  body {| Machine.w_task := cur; Machine.w_queue := [] |} =
    (inr tt, {| Machine.w_task := Some t; Machine.w_queue := evs |}) ->
  Engine.supervise tid cur body st = (inr t, Engine.written tid t evs st).
Proof. intros H. unfold Engine.supervise. rewrite H. reflexivity. Qed.

Lemma supervise_raises (tid : TaskId) (cur : option Task)
    (body : Run Machine.World unit) (e : Err) (t : Task) (evs : EventQueue)
    (st : Engine.Store) :
  body {| Machine.w_task := cur; Machine.w_queue := [] |} =
    (inl e, {| Machine.w_task := Some t; Machine.w_queue := evs |}) ->
  Engine.supervise tid cur body st = (inl e, Engine.written tid t evs st).
Proof. intros H. unfold Engine.supervise. rewrite H. reflexivity. Qed.

Lemma input_of_text (text : string) cur tid cid :
  input_of {| get_user_input := Some text; current_task := cur;
              task_id := tid; context_id := cid |} = text.
Proof. destruct text; reflexivity. Qed.

Lemma input_of_request (text cid : string) (task : option TaskId)
    (tid : TaskId) (cur : option Task) :
  input_of (Engine.request_context (Engine.user_message text cid task) tid cur)
  = text.
Proof. apply input_of_text. Qed.

Lemma fresh_id (st : Engine.Store) :
  Engine.store_wf st -> Engine.tasks st !! Engine.next_id st = None.
Proof.
  intros Hwf. destruct (Engine.tasks st !! Engine.next_id st) as [t|] eqn:E;
    [| reflexivity].
  apply Hwf in E. lia.
Qed.

Lemma empty_wf : Engine.store_wf Engine.empty.
Proof. intros tid t H. unfold Engine.empty in H; simpl in H.
  rewrite lookup_empty in H. discriminate. Qed.

(** One supervised [execute] on a task that can be started. *)
Lemma supervise_execute (ctx : RequestContext) (st : Engine.Store) :
  startable (current_task ctx) = true ->
  Engine.supervise (task_id ctx) (current_task ctx)
    (TravelAgentExecutor.execute ctx) st =
  outcome ctx (TravelAgent.process (input_of ctx) (context_id ctx)) st.
Proof.
  intros Hstart.
  pose proof (execute_with_machine TravelAgentExecutor.agent ctx [] Hstart) as E.
  unfold TravelAgentExecutor.agent in E at 2. simpl in E.
  unfold TravelAgentExecutor.execute, outcome.
  destruct (TravelAgent.needs_input
              (TravelAgent.process (input_of ctx) (context_id ctx))).
  - apply supervise_returns. exact E.
  - destruct (TravelAgentExecutor.artifact_text
                (TravelAgent.booking
                   (TravelAgent.process (input_of ctx) (context_id ctx)))).
    + apply supervise_raises. exact E.
    + apply supervise_returns. exact E.
Qed.

Lemma handle_created (text cid : string) (st : Engine.Store) :
  Engine.handle (Engine.user_message text cid None) st =
  outcome
    (Engine.request_context (Engine.user_message text cid None)
       (Engine.next_id st) None)
    (TravelAgent.process text cid) (Engine.minted cid st).
Proof.
  unfold Engine.handle. rewrite handle_with_created by reflexivity.
  pose proof (supervise_execute
    (Engine.request_context (Engine.user_message text cid None)
       (Engine.next_id st) None) (Engine.minted cid st) eq_refl) as E.
  rewrite input_of_request in E. exact E.
Qed.

Lemma handle_resumed (text cid : string) (st : Engine.Store)
    (tid : TaskId) (t : Task) :
  Engine.tasks st !! tid = Some t ->
  startable (Some t) = true ->
  Engine.handle (Engine.user_message text cid (Some tid)) st =
  outcome
    (Engine.request_context (Engine.user_message text cid (Some tid))
       tid (Some t))
    (TravelAgent.process text cid) st.
Proof.
  intros Ht Hstart. unfold Engine.handle.
  assert (Hterm : is_terminal (state (status t)) = false).
  { unfold startable in Hstart. destruct (state (status t));
      simpl in Hstart; try discriminate Hstart; reflexivity. }
  rewrite (handle_with_resumed TravelAgentExecutor.agent
    (Engine.user_message text cid (Some tid)) st tid t eq_refl Ht Hterm).
  pose proof (supervise_execute
    (Engine.request_context (Engine.user_message text cid (Some tid))
       tid (Some t)) st Hstart) as E.
  rewrite input_of_request in E. exact E.
Qed.

Lemma written_task tid t evs st :
  Engine.tasks (Engine.written tid t evs st) !! tid = Some t.
Proof. unfold Engine.written; simpl. apply lookup_insert_eq. Qed.

Lemma written_channel tid t evs st :
  Engine.channels (Engine.written tid t evs st) !! tid = Some evs.
Proof. unfold Engine.written; simpl. apply lookup_insert_eq. Qed.

Lemma written_other tid t evs st tid' :
  tid <> tid' ->
  Engine.tasks (Engine.written tid t evs st) !! tid' = Engine.tasks st !! tid'.
Proof. intros Hne. unfold Engine.written; simpl. by apply lookup_insert_ne. Qed.

(** On a task that can be started, the state machine pushes exactly the
    events of the bare queue and returns the same result. *)
Lemma machine_agrees_with_queue (agent : TravelAgentExecutor.Agent)
    (ctx : RequestContext) (q : EventQueue) :
  startable (current_task ctx) = true ->
  TravelAgentExecutor.execute_with agent ctx q =
  (fst (TravelAgentExecutor.execute_with agent ctx
          {| Machine.w_task := current_task ctx; Machine.w_queue := q |}),
   Machine.w_queue
     (snd (TravelAgentExecutor.execute_with agent ctx
             {| Machine.w_task := current_task ctx; Machine.w_queue := q |}))).
Proof.
  intros Hstart.
  rewrite execute_with_queue, execute_with_machine by exact Hstart.
  destruct (agent (input_of ctx) (context_id ctx)) as [e|r];
    [reflexivity|].
  destruct (TravelAgent.needs_input r); [reflexivity|].
  destruct (TravelAgentExecutor.artifact_text (TravelAgent.booking r));
    reflexivity.
Qed.

(** ** The store invariant *)

Lemma minted_wf (cid : string) (st : Engine.Store) :
  Engine.store_wf st ->
  Engine.store_wf (Engine.minted cid st) /\
  Engine.next_id (Engine.minted cid st) = S (Engine.next_id st).
Proof.
  intros Hwf. split; [| reflexivity].
  intros tid t H. unfold Engine.minted in *; simpl in *.
  destruct (Hwf tid t H) as [Hlt Hid]. split; [lia | exact Hid].
Qed.

Lemma written_wf (tid : TaskId) (t : Task) (evs : EventQueue)
    (st : Engine.Store) :
  Engine.store_wf st -> tid < Engine.next_id st -> id t = tid ->
  Engine.store_wf (Engine.written tid t evs st).
Proof.
  intros Hwf Hlt Hid tid' t' H. unfold Engine.written in H; simpl in *.
  apply lookup_insert_Some in H. destruct H as [[<- <-] | [_ H]].
  - split; [exact Hlt | exact Hid].
  - apply Hwf. exact H.
Qed.

Lemma outcome_wf (ctx : RequestContext) (r : TravelAgent.result)
    (st : Engine.Store) :
  Engine.store_wf st -> task_id ctx < Engine.next_id st ->
  id (started ctx) = task_id ctx ->
  Engine.store_wf (snd (outcome ctx r st)).
Proof.
  intros Hwf Hlt Hid. unfold outcome.
  destruct (TravelAgent.needs_input r); simpl.
  - apply written_wf; assumption.
  - destruct (TravelAgentExecutor.artifact_text (TravelAgent.booking r));
      simpl; apply written_wf; assumption.
Qed.

(** Handling a message keeps the store well formed. *)
Lemma handle_preserves_wf (text cid : string) (task : option TaskId)
    (st : Engine.Store) :
  Engine.store_wf st ->
  Engine.store_wf (snd (Engine.handle (Engine.user_message text cid task) st)).
Proof.
  intros Hwf. destruct task as [tid|].
  - destruct (Engine.tasks st !! tid) as [t|] eqn:Ht.
    + destruct (Hwf tid t Ht) as [Hlt Hid].
      destruct (startable (Some t)) eqn:Hstart.
      * rewrite (handle_resumed text cid st tid t Ht Hstart).
        apply outcome_wf; [exact Hwf | exact Hlt | exact Hid].
      * destruct (is_terminal (state (status t))) eqn:Hterm.
        -- unfold Engine.handle.
           rewrite (handle_with_closed TravelAgentExecutor.agent
             (Engine.user_message text cid (Some tid)) st tid t
             eq_refl Ht Hterm). exact Hwf.
        -- unfold Engine.handle.
           rewrite (handle_with_resumed TravelAgentExecutor.agent
             (Engine.user_message text cid (Some tid)) st tid t
             eq_refl Ht Hterm).
           unfold Engine.supervise.
           rewrite (execute_with_refused TravelAgentExecutor.agent
                      (Engine.request_context
                         (Engine.user_message text cid (Some tid)) tid (Some t))
                      t [] eq_refl Hstart).
           simpl. apply written_wf; assumption.
    + unfold Engine.handle, Engine.handle_with, Engine.getOrCreate,
        mbind, Run_bind; simpl. rewrite Ht. exact Hwf.
  - rewrite handle_created.
    destruct (minted_wf cid st Hwf) as [Hwf' Hnext].
    apply outcome_wf; [exact Hwf' | | reflexivity].
    simpl. lia.
Qed.

(** ** Scenarios *)

Lemma first_turn_process (cid : string) :
  TravelAgent.process "Book a flight to Paris" cid
  = TravelAgent.Result TravelAgent.ask_dates true None.
Proof. reflexivity. Qed.

(** C1: the message "Book a flight to Paris" sent with no task id creates a
    task and drives it SUBMITTED, WORKING, INPUT_REQUIRED.  The business
    logic returns [needs_input = true] and no booking; [execute] calls
    [submit], [start_work] and [requires_input], in this order, the last
    with the text that asks for travel dates. *)
Theorem first_turn_asks_for_dates (cid : string) (st : Engine.Store) :
  let text := "Book a flight to Paris" in
  let r := TravelAgent.process text cid in
  let tid := Engine.next_id st in
  let u := {| u_task_id := tid; u_context_id := cid |} in
  let ask := new_agent_text_message TravelAgent.ask_dates cid tid in
  TravelAgent.needs_input r = true /\
  TravelAgent.booking r = None /\
  TravelAgent.response r = TravelAgent.ask_dates /\
  PyStr.contains "travel dates" (TravelAgent.response r) = true /\
  (forall q : EventQueue,
     TravelAgentExecutor.execute
       {| get_user_input := Some text; current_task := None;
          task_id := tid; context_id := cid |} q
     = (inr tt,
        (q ++ [status_event u SUBMITTED None;
               status_event u WORKING None;
               status_event u INPUT_REQUIRED (Some ask)])%list)) /\
  exists t st',
    Engine.handle (Engine.user_message text cid None) st = (inr t, st') /\
    id t = tid /\ t_context_id t = cid /\
    lifecycle t = [SUBMITTED; WORKING; INPUT_REQUIRED] /\
    message (status t) = Some ask /\
    artifacts t = [] /\
    Engine.tasks st' !! tid = Some t /\
    Engine.channels st' !! tid =
      Some [status_event u SUBMITTED None;
            status_event u WORKING None;
            status_event u INPUT_REQUIRED (Some ask)].
Proof.
  intros text r tid u ask.
  repeat split; try reflexivity.
  - intros q. unfold TravelAgentExecutor.execute.
    rewrite execute_with_queue. reflexivity.
  - rewrite handle_created, first_turn_process.
    eexists _, _. split; [reflexivity|].
    repeat split; try reflexivity.
    + apply written_task.
    + apply written_channel.
Qed.

Lemma follow_up_process (cid : string) :
  TravelAgent.process "June 15 - June 22, 2026" cid
  = TravelAgent.Result flight_reply false
      (Some (TravelAgent.flight_booking "June 15 - June 22, 2026")).
Proof. reflexivity. Qed.

(** C2: the follow-up "June 15 - June 22, 2026" sent with the id of a task
    in INPUT_REQUIRED moves the task to WORKING and then COMPLETED with
    exactly one artifact added.  The business logic returns
    [needs_input = false] and a Flight booking whose departure is the
    stripped input; [execute] calls [start_work], [add_artifact] once with
    the confirmation text and [complete] with the confirming message. *)
Theorem follow_up_completes_flight (cid : string) (st : Engine.Store)
    (tid : TaskId) (t : Task) :
  Engine.tasks st !! tid = Some t ->
  state (status t) = INPUT_REQUIRED ->
  let text := "June 15 - June 22, 2026" in
  let r := TravelAgent.process text cid in
  let u := {| u_task_id := tid; u_context_id := cid |} in
  let done := new_agent_text_message flight_reply cid tid in
  let confirmation := flight_confirmation text in
  TravelAgent.needs_input r = false /\
  (exists b, TravelAgent.booking r = Some b /\
             b !! "type" = Some "Flight" /\
             b !! "departure" = Some (PyStr.strip text)) /\
  PyStr.strip text = text /\
  PyStr.contains "booked" flight_reply = true /\
  (forall q : EventQueue,
     TravelAgentExecutor.execute
       {| get_user_input := Some text; current_task := Some t;
          task_id := tid; context_id := cid |} q
     = (inr tt,
        (q ++ [status_event u WORKING None;
               artifact_event u [TextPart confirmation];
               status_event u COMPLETED (Some done)])%list)) /\
  exists t' st',
    Engine.handle (Engine.user_message text cid (Some tid)) st = (inr t', st') /\
    id t' = id t /\ t_context_id t' = t_context_id t /\
    lifecycle t' = (lifecycle t ++ [WORKING; COMPLETED])%list /\
    artifacts t' = (artifacts t ++ [{| a_parts := [TextPart confirmation] |}])%list /\
    message (status t') = Some done /\
    Engine.tasks st' !! tid = Some t' /\
    Engine.channels st' !! tid =
      Some [status_event u WORKING None;
            artifact_event u [TextPart confirmation];
            status_event u COMPLETED (Some done)].
Proof.
  intros Ht Hstate text r u done confirmation.
  split; [reflexivity|].
  split; [eexists; split; [reflexivity|]; split; vm_compute; reflexivity|].
  split; [reflexivity|].
  split; [reflexivity|].
  split.
  - intros q. unfold TravelAgentExecutor.execute.
    rewrite execute_with_queue. reflexivity.
  - assert (Hstart : startable (Some t) = true)
      by (unfold startable; rewrite Hstate; reflexivity).
    rewrite (handle_resumed text cid st tid t Ht Hstart), follow_up_process.
    unfold outcome.
    cbn [TravelAgent.needs_input TravelAgent.booking TravelAgent.response].
    rewrite flight_artifact_text.
    eexists _, _. split; [reflexivity|].
    repeat split; try reflexivity.
    + unfold finished. rewrite lifecycle_advance, lifecycle_attach.
      unfold started. cbn [current_task Engine.request_context].
      rewrite lifecycle_advance, <- app_assoc. reflexivity.
    + apply written_task.
    + apply written_channel.
Qed.

(** The follow-up applied to the store the first scenario leaves. *)
Lemma follow_up_completes_flight_witness :
  Engine.tasks scenario1_store !! 0 = Some scenario1_task /\
  state (status scenario1_task) = INPUT_REQUIRED /\
  exists t',
    fst (Engine.handle
           (Engine.user_message "June 15 - June 22, 2026" "ctx" (Some 0))
           scenario1_store) = inr t' /\
    lifecycle t' = [SUBMITTED; WORKING; INPUT_REQUIRED; WORKING; COMPLETED] /\
    length (artifacts t') = 1.
Proof.
  split; [vm_compute; reflexivity|]. split; [reflexivity|].
  destruct (follow_up_completes_flight "ctx" scenario1_store 0 scenario1_task)
    as (_ & _ & _ & _ & _ & t' & st' & Hh & _ & _ & Hl & Ha & _);
    [vm_compute; reflexivity | reflexivity |].
  exists t'. rewrite Hh.
  split; [reflexivity|]. split; [exact Hl | rewrite Ha; reflexivity].
Defined.

(** ** Event order *)

(** The events one invocation pushes on the queue. *)
Lemma execute_pushes
    (ctx : RequestContext) (q : EventQueue) :
  let r := TravelAgent.process (input_of ctx) (context_id ctx) in
  let u := updater_of ctx in
  exists closing : list Event,
    let pushed := (opening ctx ++ closing)%list in
    TravelAgentExecutor.execute ctx q = (inr tt, (q ++ pushed)%list) /\
    (head pushed = Some (status_event u SUBMITTED None)
       <-> current_task ctx = None) /\
    (TravelAgent.needs_input r = true /\
       closing = [status_event u INPUT_REQUIRED
                    (Some (reply ctx (TravelAgent.response r)))]
     \/
     TravelAgent.needs_input r = false /\
       exists text,
         closing = [artifact_event u [TextPart text];
                    status_event u COMPLETED
                      (Some (reply ctx (TravelAgent.response r)))]) /\
    length (List.filter is_final pushed) = 1 /\
    exists ev, last pushed = Some ev /\ is_final ev = true /\
               (event_state ev = Some INPUT_REQUIRED \/
                event_state ev = Some COMPLETED).
Proof.
  intros r u.
  unfold TravelAgentExecutor.execute. rewrite execute_with_queue.
  unfold TravelAgentExecutor.agent. fold r.
  assert (Hhead : forall closing,
    head (opening ctx ++ closing)%list = Some (status_event u SUBMITTED None)
    <-> current_task ctx = None).
  { intros closing. unfold opening. fold u.
    destruct (current_task ctx); simpl; split; intros H;
      try reflexivity; discriminate H. }
  unfold r. rewrite process_cases. cbv zeta.
  destruct (PyStr.contains "hotel" (PyStr.lower (input_of ctx)));
    [| destruct (TravelAgent.has_date (PyStr.lower (input_of ctx)))];
    cbn [TravelAgent.needs_input TravelAgent.booking TravelAgent.response];
    rewrite ?hotel_artifact_text, ?flight_artifact_text.
  - exists (completing ctx hotel_confirmation hotel_reply).
    split; [reflexivity|]. split; [apply Hhead|].
    split; [right; split; [reflexivity|]; eexists; reflexivity|].
    unfold opening; destruct (current_task ctx); simpl;
      (split; [reflexivity|]); eexists; (split; [reflexivity|]);
      split; auto.
  - exists (completing ctx (flight_confirmation (PyStr.strip (input_of ctx)))
              flight_reply).
    split; [reflexivity|]. split; [apply Hhead|].
    split; [right; split; [reflexivity|]; eexists; reflexivity|].
    unfold opening; destruct (current_task ctx); simpl;
      (split; [reflexivity|]); eexists; (split; [reflexivity|]);
      split; auto.
  - exists (asking ctx TravelAgent.ask_dates).
    split; [reflexivity|]. split; [apply Hhead|].
    split; [left; split; reflexivity|].
    unfold opening; destruct (current_task ctx); simpl;
      (split; [reflexivity|]); eexists; (split; [reflexivity|]);
      split; auto.
Qed.

(** C4: in every invocation of [execute] the events are pushed in program
    order: [submit] first exactly when the task is new, then [start_work],
    then either [requires_input] or [add_artifact] followed by [complete].
    Exactly one pushed event is final, and it is the last one.  Under the
    state machine, an invocation on a task that can be started returns and
    leaves these same events in the queue. *)
Theorem events_in_program_order_one_final
    (ctx : RequestContext) (q : EventQueue) :
  let r := TravelAgent.process (input_of ctx) (context_id ctx) in
  let u := updater_of ctx in
  exists closing : list Event,
    let pushed := (opening ctx ++ closing)%list in
    TravelAgentExecutor.execute ctx q = (inr tt, (q ++ pushed)%list) /\
    (head pushed = Some (status_event u SUBMITTED None)
       <-> current_task ctx = None) /\
    (TravelAgent.needs_input r = true /\
       closing = [status_event u INPUT_REQUIRED
                    (Some (reply ctx (TravelAgent.response r)))]
     \/
     TravelAgent.needs_input r = false /\
       exists text,
         closing = [artifact_event u [TextPart text];
                    status_event u COMPLETED
                      (Some (reply ctx (TravelAgent.response r)))]) /\
    length (List.filter is_final pushed) = 1 /\
    (exists ev, last pushed = Some ev /\ is_final ev = true /\
                (event_state ev = Some INPUT_REQUIRED \/
                 event_state ev = Some COMPLETED)) /\
    (startable (current_task ctx) = true ->
     let run := TravelAgentExecutor.execute ctx
                  {| Machine.w_task := current_task ctx;
                     Machine.w_queue := q |} in
     fst run = inr tt /\ Machine.w_queue (snd run) = (q ++ pushed)%list).
Proof.
  intros r u.
  destruct (execute_pushes ctx q) as (closing & Hrun & Hhead & Hclose & Hone & Hlast).
  exists closing. cbv zeta.
  split; [exact Hrun|]. split; [exact Hhead|]. split; [exact Hclose|].
  split; [exact Hone|]. split; [exact Hlast|].
  intros Hstart.
  unfold TravelAgentExecutor.execute in *.
  rewrite (machine_agrees_with_queue _ ctx q Hstart) in Hrun.
  injection Hrun as Hr Hq. split; assumption.
Qed.

(** A follow-up on the flight task waiting for input. *)
Lemma events_in_program_order_one_final_witness :
  let ctx := {| get_user_input := Some "June 15 - June 22, 2026";
                current_task := Some scenario1_task;
                task_id := 0; context_id := "ctx" |} in
  startable (current_task ctx) = true /\
  map is_final (snd (TravelAgentExecutor.execute ctx ([] : EventQueue)))
    = [false; false; true].
Proof.
  intros ctx. split; [reflexivity|].
  destruct (events_in_program_order_one_final ctx [])
    as (closing & Hrun & _).
  rewrite Hrun. vm_compute in Hrun. injection Hrun as <-. reflexivity.
Defined.


(** ** New tasks in a context *)

Lemma hotel_process (text cid : string) :
  PyStr.contains "hotel" (PyStr.lower text) = true ->
  TravelAgent.process text cid
  = TravelAgent.Result hotel_reply false (Some TravelAgent.hotel_booking).
Proof. intros H. rewrite process_cases. cbv zeta. rewrite H. reflexivity. Qed.

(** C5: a user message whose lowercase text contains "hotel", sent with no
    task id, opens a new task with a fresh id in the same context and
    completes it in one turn: the business logic returns the fixed Hotel
    booking whatever else the text holds, and [execute] attaches the one
    hotel confirmation and calls [complete], never [requires_input]. *)
Theorem hotel_message_opens_new_task (text cid : string) (st : Engine.Store) :
  Engine.store_wf st ->
  PyStr.contains "hotel" (PyStr.lower text) = true ->
  let tid := Engine.next_id st in
  let u := {| u_task_id := tid; u_context_id := cid |} in
  let done := new_agent_text_message hotel_reply cid tid in
  TravelAgent.process text cid
    = TravelAgent.Result hotel_reply false (Some TravelAgent.hotel_booking) /\
  exists t st',
    Engine.handle (Engine.user_message text cid None) st = (inr t, st') /\
    id t = tid /\
    Engine.tasks st !! id t = None /\
    (forall tid' t', Engine.tasks st !! tid' = Some t' ->
       id t <> tid' /\ Engine.tasks st' !! tid' = Some t') /\
    t_context_id t = cid /\
    In (id t) (default [] (Engine.contexts st' !! cid)) /\
    lifecycle t = [SUBMITTED; WORKING; COMPLETED] /\
    artifacts t = [{| a_parts := [TextPart hotel_confirmation] |}] /\
    message (status t) = Some done /\
    Engine.tasks st' !! id t = Some t /\
    Engine.channels st' !! id t =
      Some [status_event u SUBMITTED None;
            status_event u WORKING None;
            artifact_event u [TextPart hotel_confirmation];
            status_event u COMPLETED (Some done)].
Proof.
  intros Hwf Hhotel tid u done.
  split; [apply hotel_process; exact Hhotel|].
  rewrite handle_created, (hotel_process text cid Hhotel).
  unfold outcome.
  cbn [TravelAgent.needs_input TravelAgent.booking TravelAgent.response].
  rewrite hotel_artifact_text.
  eexists _, _. split; [reflexivity|].
  pose proof (fresh_id st Hwf) as Hfresh. fold tid in Hfresh.
  split; [reflexivity|].
  split; [exact Hfresh|].
  split.
  { intros tid' t' Ht'.
    assert (Hne : tid <> tid') by (intros ->; congruence).
    split; [exact Hne|].
    rewrite written_other by exact Hne. exact Ht'. }
  split; [reflexivity|].
  split.
  { unfold Engine.written, Engine.minted; simpl.
    rewrite lookup_insert_eq. simpl.
    apply in_or_app. right. left. reflexivity. }
  split; [reflexivity|]. split; [reflexivity|]. split; [reflexivity|].
  split; [apply written_task | apply written_channel].
Qed.

Lemma scenario1_wf : Engine.store_wf scenario1_store.
Proof.
  intros tid t H.
  assert (E : Engine.tasks scenario1_store = <[0 := scenario1_task]> ∅)
    by (vm_compute; reflexivity).
  rewrite E in H. apply lookup_insert_Some in H.
  destruct H as [[<- <-] | [_ H]].
  - split; [apply le_n | reflexivity].
  - rewrite lookup_empty in H. discriminate H.
Qed.

(** A hotel request that also names a date, sent after the flight task. *)
Lemma hotel_message_opens_new_task_witness :
  Engine.store_wf scenario1_store /\
  PyStr.contains "hotel" (PyStr.lower "Book a Hotel for June 2026") = true /\
  exists t,
    fst (Engine.handle
           (Engine.user_message "Book a Hotel for June 2026" "ctx" None)
           scenario1_store) = inr t /\
    id t = 1 /\ lifecycle t = [SUBMITTED; WORKING; COMPLETED].
Proof.
  split; [exact scenario1_wf|]. split; [reflexivity|].
  destruct (hotel_message_opens_new_task "Book a Hotel for June 2026" "ctx"
              scenario1_store scenario1_wf eq_refl)
    as (_ & t & st' & Hh & Hid & _ & _ & _ & _ & Hl & _).
  exists t. rewrite Hh. split; [reflexivity|]. split; [exact Hid | exact Hl].
Defined.

(** C9: "Book a flight to Marseille" names no travel date, yet its
    lowercase form contains the month word "mar": the business logic
    returns [needs_input = false] with a Flight booking whose departure is
    the whole stripped input, and the task completes in a single turn
    without any request for dates. *)
Theorem marseille_books_without_dates (cid : string) (st : Engine.Store) :
  let text := "Book a flight to Marseille" in
  let r := TravelAgent.process text cid in
  PyStr.contains "mar" (PyStr.lower text) = true /\
  List.filter (fun d => PyStr.contains d (PyStr.lower text))
    TravelAgent.date_words = ["mar"] /\
  TravelAgent.needs_input r = false /\
  TravelAgent.booking r = Some (TravelAgent.flight_booking text) /\
  PyStr.strip text = text /\
  (exists b, TravelAgent.booking r = Some b /\
             b !! "type" = Some "Flight" /\
             b !! "departure" = Some (PyStr.strip text)) /\
  exists t st',
    Engine.handle (Engine.user_message text cid None) st = (inr t, st') /\
    lifecycle t = [SUBMITTED; WORKING; COMPLETED] /\
    artifacts t = [{| a_parts := [TextPart (flight_confirmation text)] |}] /\
    (forall evs, Engine.channels st' !! id t = Some evs ->
       ~ In (Some INPUT_REQUIRED) (map event_state evs)).
Proof.
  intros text r.
  split; [reflexivity|]. split; [reflexivity|]. split; [reflexivity|].
  split; [reflexivity|]. split; [reflexivity|].
  split; [eexists; split; [reflexivity|]; split; vm_compute; reflexivity|].
  rewrite handle_created.
  assert (Hp : TravelAgent.process text cid
               = TravelAgent.Result flight_reply false
                   (Some (TravelAgent.flight_booking text)))
    by reflexivity.
  rewrite Hp. unfold outcome.
  cbn [TravelAgent.needs_input TravelAgent.booking TravelAgent.response].
  rewrite flight_artifact_text.
  eexists _, _. split; [reflexivity|].
  split; [reflexivity|]. split; [reflexivity|].
  intros evs Hevs. cbn [id Machine.advance Machine.attach started finished
    current_task Engine.request_context Machine.create updater_of task_id
    u_task_id] in Hevs.
  rewrite written_channel in Hevs. injection Hevs as <-.
  simpl. intros [H|[H|[H|[H|[]]]]]; discriminate H.
Qed.

(** ** The business logic and its context *)

(** C10: the result of [process] is a function of the input text alone;
    the context id has no influence on it. *)
Theorem process_ignores_context (user_input c1 c2 : string) :
  TravelAgent.process user_input c1 = TravelAgent.process user_input c2.
Proof. rewrite !process_cases. reflexivity. Qed.

(** [execute] returns normally on the event queue, whatever the request. *)
Lemma execute_returns (ctx : RequestContext) (q : EventQueue) :
  fst (TravelAgentExecutor.execute ctx q) = inr tt.
Proof.
  unfold TravelAgentExecutor.execute. rewrite execute_with_queue.
  unfold TravelAgentExecutor.agent. rewrite process_cases. cbv zeta.
  destruct (PyStr.contains "hotel" (PyStr.lower (input_of ctx)));
    [| destruct (TravelAgent.has_date (PyStr.lower (input_of ctx)))];
    cbn [TravelAgent.needs_input TravelAgent.booking];
    rewrite ?hotel_artifact_text, ?flight_artifact_text; reflexivity.
Qed.

Lemma hotel_booking_keys :
  TravelAgent.hotel_booking !! "type" = Some "Hotel" /\
  has_keys TravelAgent.hotel_booking hotel_keys.
Proof.
  split; [vm_compute; reflexivity|].
  unfold has_keys, hotel_keys.
  repeat (apply Forall_cons; split; [vm_compute; eauto|]).
  apply Forall_nil; exact I.
Qed.

Lemma flight_booking_keys (departure : string) :
  TravelAgent.flight_booking departure !! "type" = Some "Flight" /\
  has_keys (TravelAgent.flight_booking departure) flight_keys.
Proof.
  split; [vm_compute; reflexivity|].
  unfold has_keys, flight_keys.
  repeat (apply Forall_cons; split; [vm_compute; eauto|]).
  apply Forall_nil; exact I.
Qed.

(** C8: whenever [process] returns [needs_input = false], the booking is
    a dict that holds the key "type" and every key the artifact formatting
    of [execute] reads for that type, so the completion branch never fails
    on a missing booking or a missing key. *)
Theorem booking_has_keys_read_by_execute (user_input context_id : string) :
  TravelAgent.needs_input (TravelAgent.process user_input context_id) = false ->
  (exists b,
     TravelAgent.booking (TravelAgent.process user_input context_id) = Some b /\
     is_Some (b !! "type") /\
     (if decide (b !! "type" = Some "Hotel")
      then has_keys b hotel_keys else has_keys b flight_keys) /\
     exists text, TravelAgentExecutor.artifact_text (Some b) = inr text) /\
  forall (cur : option Task) (tid : TaskId) (q : EventQueue),
    fst (TravelAgentExecutor.execute
           {| get_user_input := Some user_input; current_task := cur;
              task_id := tid; context_id := context_id |} q) = inr tt.
Proof.
  intros Hdone. split; [| intros; apply execute_returns].
  revert Hdone. rewrite process_cases. cbv zeta.
  destruct (PyStr.contains "hotel" (PyStr.lower user_input));
    [| destruct (TravelAgent.has_date (PyStr.lower user_input))];
    cbn [TravelAgent.needs_input TravelAgent.booking]; intros Hdone.
  - exists TravelAgent.hotel_booking.
    destruct hotel_booking_keys as [Hty Hkeys].
    split; [reflexivity|]. split; [rewrite Hty; eauto|].
    split; [rewrite Hty; exact Hkeys|].
    eexists. apply hotel_artifact_text.
  - exists (TravelAgent.flight_booking (PyStr.strip user_input)).
    destruct (flight_booking_keys (PyStr.strip user_input)) as [Hty Hkeys].
    split; [reflexivity|]. split; [rewrite Hty; eauto|].
    split; [rewrite Hty; exact Hkeys|].
    eexists. apply flight_artifact_text.
  - discriminate Hdone.
Qed.

Lemma booking_has_keys_read_by_execute_witness :
  TravelAgent.needs_input
    (TravelAgent.process "Book a hotel near the airport in Paris" "ctx") = false /\
  exists b,
    TravelAgent.booking
      (TravelAgent.process "Book a hotel near the airport in Paris" "ctx")
      = Some b /\
    has_keys b hotel_keys.
Proof.
  split; [reflexivity|].
  destruct (booking_has_keys_read_by_execute
              "Book a hotel near the airport in Paris" "ctx" eq_refl)
    as [(b & Hb & _ & Hkeys & _) _].
  exists b. split; [exact Hb|].
  assert (b = TravelAgent.hotel_booking) as -> by (injection Hb as <-; reflexivity).
  exact Hkeys.
Defined.

(** ** Terminal tasks *)

(** C6: a message that references a task in a terminal state is refused
    with [TaskClosedError] and the store, hence the status, the status
    history and the artifacts of the task, is left as it was; [execute]
    itself cannot apply [start_work] to such a task: the transition is
    refused and neither the record nor the queue changes. *)
Theorem terminal_task_rejects_message (agent : TravelAgentExecutor.Agent)
    (m : Message) (st : Engine.Store) (tid : TaskId) (t : Task) :
  m_task_id m = Some tid ->
  Engine.tasks st !! tid = Some t ->
  is_terminal (state (status t)) = true ->
  Engine.handle_with agent m st = (inl TaskClosedError, st) /\
  Engine.tasks (snd (Engine.handle_with agent m st)) !! tid = Some t /\
  forall (ctx : RequestContext) (q : EventQueue),
    current_task ctx = Some t ->
    TravelAgentExecutor.execute_with agent ctx
      {| Machine.w_task := Some t; Machine.w_queue := q |}
    = (inl InvalidTransitionError,
       {| Machine.w_task := Some t; Machine.w_queue := q |}).
Proof.
  intros Hm Ht Hterm.
  rewrite (handle_with_closed agent m st tid t Hm Ht Hterm).
  split; [reflexivity|]. split; [exact Ht|].
  intros ctx q Hcur.
  apply execute_with_refused; [exact Hcur|].
  apply terminal_not_legal. exact Hterm.
Qed.

(** The task the two flight scenarios leave COMPLETED is addressed again. *)
Lemma terminal_task_rejects_message_witness :
  Engine.tasks scenario2_store !! 0 = Some scenario2_task /\
  is_terminal (state (status scenario2_task)) = true /\
  Engine.handle (Engine.user_message "Change my seat" "ctx" (Some 0))
    scenario2_store
  = (inl TaskClosedError, scenario2_store).
Proof.
  split; [vm_compute; reflexivity|]. split; [reflexivity|].
  apply (terminal_task_rejects_message TravelAgentExecutor.agent
           (Engine.user_message "Change my seat" "ctx" (Some 0))
           scenario2_store 0 scenario2_task);
    [reflexivity | vm_compute; reflexivity | reflexivity].
Defined.

(** C7: [cancelTask] on a task in a terminal state returns the no-op
    acknowledgment and leaves the store, hence the status of the task, as
    it was; the executor's [cancel] records no CANCELED transition on such
    a task: the transition is refused and nothing changes. *)
Theorem cancel_on_terminal_is_noop (st : Engine.Store) (tid : TaskId)
    (t : Task) :
  Engine.tasks st !! tid = Some t ->
  is_terminal (state (status t)) = true ->
  Engine.cancelTask tid st = (inr Engine.NoOp, st) /\
  Engine.tasks (snd (Engine.cancelTask tid st)) !! tid = Some t /\
  forall (ctx : RequestContext) (q : EventQueue),
    TravelAgentExecutor.cancel ctx
      {| Machine.w_task := Some t; Machine.w_queue := q |}
    = (inl InvalidTransitionError,
       {| Machine.w_task := Some t; Machine.w_queue := q |}).
Proof.
  intros Ht Hterm.
  assert (E : Engine.cancelTask tid st = (inr Engine.NoOp, st)).
  { unfold Engine.cancelTask, mbind, Run_bind. rewrite Ht, Hterm. reflexivity. }
  rewrite E. split; [reflexivity|]. split; [exact Ht|].
  intros ctx q. unfold TravelAgentExecutor.cancel; simpl.
  unfold Machine.transition, Machine.current_state; simpl.
  pose proof (terminal_not_legal _ Machine.Cancel Hterm) as Hl.
  simpl in Hl. rewrite Hl. reflexivity.
Qed.

Lemma cancel_on_terminal_is_noop_witness :
  Engine.tasks scenario2_store !! 0 = Some scenario2_task /\
  state (status scenario2_task) = COMPLETED /\
  Engine.cancelTask 0 scenario2_store = (inr Engine.NoOp, scenario2_store).
Proof.
  split; [vm_compute; reflexivity|]. split; [reflexivity|].
  apply (cancel_on_terminal_is_noop scenario2_store 0 scenario2_task);
    [vm_compute; reflexivity | reflexivity].
Defined.

(** ** Text operations *)

Lemma lower_app (a b : string) :
  PyStr.lower (a ++ b) = PyStr.lower a ++ PyStr.lower b.
Proof. induction a as [|c a IH]; simpl; [reflexivity | rewrite IH; reflexivity]. Qed.

Lemma is_space_lower_char (c : ascii) :
  PyStr.is_space (PyStr.lower_char c) = PyStr.is_space c.
Proof. destruct c as [[] [] [] [] [] [] [] []]; reflexivity. Qed.

Lemma prefix_app (d u b : string) :
  String.prefix d u = true -> String.prefix d (u ++ b) = true.
Proof.
  revert u. induction d as [|a d IH]; intros u H;
    [destruct (u ++ b); reflexivity|].
  destruct u as [|c u]; simpl in *; [discriminate H|].
  destruct (ascii_dec a c); [apply IH; exact H | discriminate H].
Qed.

Lemma contains_app_r (d u b : string) :
  PyStr.contains d u = true -> PyStr.contains d (u ++ b) = true.
Proof.
  induction u as [|c u IH]; intros H.
  - simpl in H. rewrite orb_false_r in H.
    destruct d; [destruct b; reflexivity | discriminate H].
  - change (String.prefix d (String c u) || PyStr.contains d u = true) in H.
    change (String.prefix d (String c u ++ b) || PyStr.contains d (u ++ b) = true).
    apply orb_true_iff in H. apply orb_true_iff. destruct H as [H|H].
    + left. apply prefix_app. exact H.
    + right. apply IH. exact H.
Qed.

Lemma contains_app_l (d a u : string) :
  PyStr.contains d u = true -> PyStr.contains d (a ++ u) = true.
Proof.
  intros H. induction a as [|c a IH]; [exact H|].
  change (String.prefix d (String c (a ++ u)) || PyStr.contains d (a ++ u) = true).
  rewrite IH. apply orb_true_r.
Qed.

Lemma contains_nonempty (a : ascii) (d s : string) :
  PyStr.contains (String a d) s = true -> s <> EmptyString.
Proof. intros H ->. discriminate H. Qed.

Lemma all_space_lower (s : string) : all_space (PyStr.lower s) = all_space s.
Proof.
  induction s as [|c s IH]; [reflexivity|].
  simpl. rewrite is_space_lower_char, IH. reflexivity.
Qed.

(** A word that starts with a non-space character does not occur in a
    blank text. *)
Lemma contains_blank (s : string) (a : ascii) (d : string) :
  all_space s = true -> PyStr.is_space a = false ->
  PyStr.contains (String a d) s = false.
Proof.
  intros Hs Ha. induction s as [|c s IH]; [reflexivity|].
  simpl in Hs. apply andb_true_iff in Hs. destruct Hs as [Hc Hs].
  change (String.prefix (String a d) (String c s)
          || PyStr.contains (String a d) s = false).
  rewrite (IH Hs), orb_false_r. simpl.
  destruct (ascii_dec a c) as [->|]; [congruence | reflexivity].
Qed.

Lemma lower_lstrip (s : string) :
  PyStr.lower (PyStr.lstrip s) = PyStr.lstrip (PyStr.lower s).
Proof.
  induction s as [|c s IH]; [reflexivity|].
  simpl. rewrite is_space_lower_char.
  destruct (PyStr.is_space c); [exact IH | reflexivity].
Qed.

Lemma lower_rstrip (s : string) :
  PyStr.lower (PyStr.rstrip s) = PyStr.rstrip (PyStr.lower s).
Proof.
  induction s as [|c s IH]; [reflexivity|].
  simpl. rewrite <- IH, is_space_lower_char.
  destruct (PyStr.rstrip s); simpl;
    [destruct (PyStr.is_space c); reflexivity | reflexivity].
Qed.

Lemma lower_strip (s : string) :
  PyStr.lower (PyStr.strip s) = PyStr.strip (PyStr.lower s).
Proof. unfold PyStr.strip. rewrite lower_rstrip, lower_lstrip. reflexivity. Qed.

(** What [lstrip] returns is an end of the text, what [rstrip] returns a
    beginning. *)
Lemma lstrip_suffix (s : string) : exists w, s = w ++ PyStr.lstrip s.
Proof.
  induction s as [|c s [w IH]]; [exists EmptyString; reflexivity|].
  simpl. destruct (PyStr.is_space c).
  - exists (String c w). rewrite IH at 1. reflexivity.
  - exists EmptyString. reflexivity.
Qed.

Lemma rstrip_prefix (s : string) : exists w, s = PyStr.rstrip s ++ w.
Proof.
  induction s as [|c s [w IH]]; [exists EmptyString; reflexivity|].
  simpl. destruct (PyStr.rstrip s) as [|c' t'] eqn:E.
  - destruct (PyStr.is_space c).
    + exists (String c s). reflexivity.
    + exists w. simpl. rewrite IH at 1. reflexivity.
  - exists w. simpl. rewrite IH at 1. reflexivity.
Qed.

Lemma contains_strip_inv (d s : string) :
  PyStr.contains d (PyStr.strip s) = true -> PyStr.contains d s = true.
Proof.
  unfold PyStr.strip. intros H.
  destruct (lstrip_suffix s) as [w Hw].
  destruct (rstrip_prefix (PyStr.lstrip s)) as [w' Hw'].
  rewrite Hw, Hw'. apply contains_app_l, contains_app_r. exact H.
Qed.

Lemma contains_lstrip (a : ascii) (d s : string) :
  PyStr.is_space a = false ->
  PyStr.contains (String a d) s = true ->
  PyStr.contains (String a d) (PyStr.lstrip s) = true.
Proof.
  intros Ha. induction s as [|c s IH]; intros H; [discriminate H|].
  simpl PyStr.lstrip. destruct (PyStr.is_space c) eqn:Hc; [| exact H].
  apply IH.
  change (String.prefix (String a d) (String c s)
          || PyStr.contains (String a d) s = true) in H.
  apply orb_true_iff in H. destruct H as [H|H]; [| exact H].
  simpl in H. destruct (ascii_dec a c) as [->|]; [congruence | discriminate H].
Qed.

Lemma prefix_rstrip (d s : string) :
  no_space d = true -> d <> EmptyString ->
  String.prefix d s = true -> String.prefix d (PyStr.rstrip s) = true.
Proof.
  revert s. induction d as [|a d IH]; intros s Hd Hne H; [congruence|].
  destruct s as [|c s]; [discriminate H|].
  simpl in H. destruct (ascii_dec a c) as [<-|]; [| discriminate H].
  simpl in Hd. apply andb_true_iff in Hd. destruct Hd as [Ha Hd].
  apply negb_true_iff in Ha.
  simpl PyStr.rstrip.
  destruct d as [|a' d].
  - destruct (PyStr.rstrip s); [rewrite Ha|]; simpl;
      destruct (ascii_dec a a); try congruence;
      match goal with |- String.prefix EmptyString ?x = true =>
        destruct x; reflexivity end.
  - assert (Hp : String.prefix (String a' d) (PyStr.rstrip s) = true)
      by (apply IH; [exact Hd | discriminate | exact H]).
    destruct (PyStr.rstrip s) as [|c' t']; [discriminate Hp|].
    simpl. destruct (ascii_dec a a); [exact Hp | congruence].
Qed.

Lemma contains_rstrip (d s : string) :
  no_space d = true -> d <> EmptyString ->
  PyStr.contains d s = true -> PyStr.contains d (PyStr.rstrip s) = true.
Proof.
  intros Hd Hne. induction s as [|c s IH]; intros H.
  - destruct d; [congruence | discriminate H].
  - change (String.prefix d (String c s) || PyStr.contains d s = true) in H.
    apply orb_true_iff in H. destruct H as [H|H].
    + apply (prefix_rstrip d _ Hd Hne) in H.
      destruct (PyStr.rstrip (String c s)) as [|c' t'];
        [destruct d; [congruence | discriminate H]|].
      change (String.prefix d (String c' t') || PyStr.contains d t' = true).
      rewrite H. reflexivity.
    + specialize (IH H). simpl PyStr.rstrip.
      destruct (PyStr.rstrip s) as [|c' t'];
        [destruct d; [congruence | discriminate IH]|].
      change (String.prefix d (String c (String c' t'))
              || PyStr.contains d (String c' t') = true).
      rewrite IH. apply orb_true_r.
Qed.

Lemma contains_strip (a : ascii) (d s : string) :
  no_space (String a d) = true ->
  PyStr.contains (String a d) s = true ->
  PyStr.contains (String a d) (PyStr.strip s) = true.
Proof.
  intros Hd H. unfold PyStr.strip.
  apply contains_rstrip; [exact Hd | discriminate |].
  apply contains_lstrip; [| exact H].
  simpl in Hd. apply andb_true_iff in Hd. destruct Hd as [Ha _].
  apply negb_true_iff. exact Ha.
Qed.

Lemma rstrip_cons (c : ascii) (t : string) :
  PyStr.rstrip (String c t) =
  match PyStr.rstrip t with
  | EmptyString =>
      if PyStr.is_space c then EmptyString else String c EmptyString
  | t' => String c t'
  end.
Proof. reflexivity. Qed.

Lemma rstrip_idem (s : string) : PyStr.rstrip (PyStr.rstrip s) = PyStr.rstrip s.
Proof.
  induction s as [|c s IH]; [reflexivity|].
  rewrite (rstrip_cons c s). destruct (PyStr.rstrip s) as [|c' t'] eqn:E.
  - destruct (PyStr.is_space c) eqn:Hc; [reflexivity|].
    rewrite rstrip_cons. simpl. rewrite Hc. reflexivity.
  - rewrite rstrip_cons, IH. reflexivity.
Qed.

Lemma first_char_lstrip (s : string) (c : ascii) :
  first_char (PyStr.lstrip s) = Some c -> PyStr.is_space c = false.
Proof.
  induction s as [|a s IH]; [discriminate|].
  simpl. destruct (PyStr.is_space a) eqn:Ha; [exact IH|].
  simpl. intros [= <-]. exact Ha.
Qed.

Lemma first_char_rstrip (s : string) (c : ascii) :
  first_char (PyStr.rstrip s) = Some c -> first_char s = Some c.
Proof.
  destruct s as [|a s]; [discriminate|].
  simpl. destruct (PyStr.rstrip s); [destruct (PyStr.is_space a)|];
    simpl; congruence.
Qed.

Lemma last_char_rstrip (s : string) (c : ascii) :
  last_char (PyStr.rstrip s) = Some c -> PyStr.is_space c = false.
Proof.
  induction s as [|a s IH]; [discriminate|].
  simpl PyStr.rstrip. destruct (PyStr.rstrip s) as [|c' t'] eqn:E.
  - destruct (PyStr.is_space a) eqn:Ha; [discriminate|].
    simpl. intros [= <-]. exact Ha.
  - intros H. apply IH. exact H.
Qed.

Lemma strip_trimmed (s : string) : trimmed (PyStr.strip s).
Proof.
  unfold trimmed, PyStr.strip. split; intros c H.
  - apply first_char_rstrip in H. apply (first_char_lstrip s). exact H.
  - apply (last_char_rstrip (PyStr.lstrip s)). exact H.
Qed.

(** A text that does not start with whitespace is left alone by [lstrip]. *)
Lemma lstrip_fixed (s : string) :
  (forall c, first_char s = Some c -> PyStr.is_space c = false) ->
  PyStr.lstrip s = s.
Proof.
  destruct s as [|a s]; [reflexivity|].
  intros H. simpl. rewrite (H a eq_refl). reflexivity.
Qed.

Lemma strip_idem (s : string) : PyStr.strip (PyStr.strip s) = PyStr.strip s.
Proof.
  unfold PyStr.strip at 1.
  rewrite (lstrip_fixed (PyStr.strip s)) by apply strip_trimmed.
  unfold PyStr.strip. apply rstrip_idem.
Qed.

(** ** Date detection *)

Lemma date_words_solid (d : string) :
  In d TravelAgent.date_words -> solid d = true.
Proof.
  revert d. apply forallb_forall. reflexivity.
Qed.

Lemma solid_inv (d : string) :
  solid d = true ->
  exists a d', d = String a d' /\ PyStr.is_space a = false /\
               no_space (String a d') = true.
Proof.
  destruct d as [|a d']; [discriminate|]. intros H.
  exists a, d'. split; [reflexivity|]. split; [| exact H].
  simpl in H. apply andb_true_iff in H. destruct H as [H _].
  apply negb_true_iff. exact H.
Qed.

Lemma has_date_iff (text : string) :
  TravelAgent.has_date text = true <->
  exists d, In d TravelAgent.date_words /\ PyStr.contains d text = true.
Proof. unfold TravelAgent.has_date. apply existsb_exists. Qed.

Lemma has_date_blank (s : string) :
  all_space s = true -> TravelAgent.has_date s = false.
Proof.
  intros Hs. destruct (TravelAgent.has_date s) eqn:E; [| reflexivity].
  apply has_date_iff in E. destruct E as (d & Hin & Hc).
  destruct (solid_inv d (date_words_solid d Hin)) as (a & d' & -> & Ha & _).
  rewrite (contains_blank s a d' Hs Ha) in Hc. discriminate Hc.
Qed.

Lemma has_date_app (a u b : string) :
  TravelAgent.has_date (PyStr.lower u) = true ->
  TravelAgent.has_date (PyStr.lower (a ++ u ++ b)) = true.
Proof.
  intros H. apply has_date_iff in H. destruct H as (d & Hin & Hc).
  apply has_date_iff. exists d. split; [exact Hin|].
  rewrite !lower_app. apply contains_app_l, contains_app_r. exact Hc.
Qed.

Lemma has_date_strip (u : string) :
  TravelAgent.has_date (PyStr.lower u) = true ->
  TravelAgent.has_date (PyStr.lower (PyStr.strip u)) = true.
Proof.
  intros H. apply has_date_iff in H. destruct H as (d & Hin & Hc).
  apply has_date_iff. exists d. split; [exact Hin|].
  destruct (solid_inv d (date_words_solid d Hin)) as (a & d' & -> & _ & Hd).
  rewrite lower_strip. apply contains_strip; assumption.
Qed.

(** ** The business logic on blank, recased, extended and trimmed text *)

Lemma blank_text_asks_for_dates (u c : string) :
  all_space u = true ->
  TravelAgent.process u c
  = TravelAgent.Result TravelAgent.ask_dates true None.
Proof.
  intros Hu. rewrite process_cases. cbv zeta.
  assert (Hl : all_space (PyStr.lower u) = true)
    by (rewrite all_space_lower; exact Hu).
  rewrite (contains_blank _ "h" "otel" Hl eq_refl).
  rewrite (has_date_blank _ Hl). reflexivity.
Qed.

(** X1: a request that carries no text, empty text or whitespace only is
    answered by the request for travel dates: [execute] pushes the opening
    events and [requires_input], and neither an artifact nor a
    completion. *)
Theorem request_without_text_asks_for_dates
    (ctx : RequestContext) (q : EventQueue) :
  no_text ctx = true ->
  TravelAgent.process (input_of ctx) (context_id ctx)
    = TravelAgent.Result TravelAgent.ask_dates true None /\
  TravelAgentExecutor.execute ctx q
    = (inr tt,
       (q ++ opening ctx ++
        [status_event (updater_of ctx) INPUT_REQUIRED
           (Some (reply ctx TravelAgent.ask_dates))])%list).
Proof.
  intros Hno.
  assert (Hblank : all_space (input_of ctx) = true).
  { unfold no_text in Hno. unfold input_of.
    destruct (get_user_input ctx) as [[|c s]|]; try reflexivity. exact Hno. }
  pose proof (blank_text_asks_for_dates (input_of ctx) (context_id ctx) Hblank)
    as Hp.
  split; [exact Hp|].
  unfold TravelAgentExecutor.execute. rewrite execute_with_queue.
  unfold TravelAgentExecutor.agent. rewrite Hp. reflexivity.
Qed.

Lemma request_without_text_asks_for_dates_witness :
  let ctx := {| get_user_input := None; current_task := None;
                task_id := 7; context_id := "ctx" |} in
  no_text ctx = true /\
  map event_state (snd (TravelAgentExecutor.execute ctx ([] : EventQueue)))
    = [Some SUBMITTED; Some WORKING; Some INPUT_REQUIRED].
Proof.
  intros ctx. split; [reflexivity|].
  destruct (request_without_text_asks_for_dates ctx [] eq_refl) as [_ H].
  rewrite H. reflexivity.
Defined.

(** X2: the outcome depends on the letters of the input, not on their
    case: two inputs with the same lowercase form get the same
    [needs_input], the same response and the same booking up to the
    [departure] field. *)
Theorem outcome_is_case_insensitive (u1 u2 c1 c2 : string) :
  PyStr.lower u1 = PyStr.lower u2 ->
  let r1 := TravelAgent.process u1 c1 in
  let r2 := TravelAgent.process u2 c2 in
  TravelAgent.needs_input r1 = TravelAgent.needs_input r2 /\
  TravelAgent.response r1 = TravelAgent.response r2 /\
  forall key, key <> "departure" ->
    TravelAgent.booking r1 ≫= (.!! key) = TravelAgent.booking r2 ≫= (.!! key).
Proof.
  intros Hl r1 r2. unfold r1, r2. rewrite !process_cases. cbv zeta.
  rewrite Hl.
  destruct (PyStr.contains "hotel" (PyStr.lower u2));
    [| destruct (TravelAgent.has_date (PyStr.lower u2))];
    (split; [reflexivity|]); (split; [reflexivity|]);
    intros key Hkey; try reflexivity.
  simpl. unfold TravelAgent.flight_booking.
  rewrite !lookup_insert. repeat case_decide; congruence.
Qed.

Lemma outcome_is_case_insensitive_witness :
  PyStr.lower "BOOK A HOTEL" = PyStr.lower "book a hotel" /\
  TravelAgent.needs_input (TravelAgent.process "BOOK A HOTEL" "a")
  = TravelAgent.needs_input (TravelAgent.process "book a hotel" "b").
Proof.
  split; [reflexivity|].
  apply (outcome_is_case_insensitive "BOOK A HOTEL" "book a hotel" "a" "b").
  reflexivity.
Defined.

(** X3: text added before and after an input that is booked at once does
    not turn it into a request for dates, and a hotel request stays a
    hotel booking. *)
Theorem surrounding_text_keeps_booking (a u b c : string) :
  TravelAgent.needs_input (TravelAgent.process u c) = false ->
  TravelAgent.needs_input (TravelAgent.process (a ++ u ++ b) c) = false /\
  (PyStr.contains "hotel" (PyStr.lower u) = true ->
   TravelAgent.process (a ++ u ++ b) c
   = TravelAgent.Result hotel_reply false (Some TravelAgent.hotel_booking)).
Proof.
  intros Hdone.
  assert (Hhotel : PyStr.contains "hotel" (PyStr.lower u) = true ->
                   PyStr.contains "hotel" (PyStr.lower (a ++ u ++ b)) = true).
  { intros H. rewrite !lower_app. apply contains_app_l, contains_app_r.
    exact H. }
  split.
  - revert Hdone. rewrite !process_cases. cbv zeta.
    destruct (PyStr.contains "hotel" (PyStr.lower u)) eqn:Eh.
    + intros _. rewrite (Hhotel eq_refl). reflexivity.
    + destruct (TravelAgent.has_date (PyStr.lower u)) eqn:Ed;
        [| intros H; discriminate H].
      intros _. rewrite (has_date_app a u b Ed).
      destruct (PyStr.contains "hotel" (PyStr.lower (a ++ u ++ b)));
        reflexivity.
  - intros H. apply hotel_process. apply Hhotel. exact H.
Qed.

Lemma surrounding_text_keeps_booking_witness :
  TravelAgent.needs_input (TravelAgent.process "June 15" "ctx") = false /\
  TravelAgent.needs_input
    (TravelAgent.process ("Leaving on " ++ "June 15" ++ ", please") "ctx")
  = false.
Proof.
  split; [reflexivity|].
  apply (surrounding_text_keeps_booking "Leaving on " "June 15" ", please" "ctx").
  reflexivity.
Defined.

Lemma flight_case (u c : string) (b : TravelAgent.dict) :
  TravelAgent.booking (TravelAgent.process u c) = Some b ->
  b !! "type" = Some "Flight" ->
  PyStr.contains "hotel" (PyStr.lower u) = false /\
  TravelAgent.has_date (PyStr.lower u) = true /\
  b = TravelAgent.flight_booking (PyStr.strip u).
Proof.
  rewrite process_cases. cbv zeta.
  destruct (PyStr.contains "hotel" (PyStr.lower u));
    [| destruct (TravelAgent.has_date (PyStr.lower u))];
    simpl; intros Hb Hty.
  - injection Hb as <-. vm_compute in Hty. discriminate Hty.
  - injection Hb as <-. repeat split; reflexivity.
  - discriminate Hb.
Qed.

(** X4: the [departure] of a Flight booking is the input without its
    surrounding whitespace: it is not empty, neither starts nor ends with
    whitespace, and still holds a date word. *)
Theorem flight_departure_is_trimmed_and_dated
    (u c : string) (b : TravelAgent.dict) :
  TravelAgent.booking (TravelAgent.process u c) = Some b ->
  b !! "type" = Some "Flight" ->
  b !! "departure" = Some (PyStr.strip u) /\
  PyStr.strip u <> EmptyString /\
  trimmed (PyStr.strip u) /\
  TravelAgent.has_date (PyStr.lower (PyStr.strip u)) = true.
Proof.
  intros Hb Hty.
  destruct (flight_case u c b Hb Hty) as (_ & Hdate & ->).
  pose proof (has_date_strip u Hdate) as Hd.
  split; [vm_compute; reflexivity|].
  split; [| split; [apply strip_trimmed | exact Hd]].
  intros E. rewrite E in Hd. discriminate Hd.
Qed.

Lemma flight_departure_is_trimmed_and_dated_witness :
  let u := String (ascii_of_nat 10) "  June 15 - June 22, 2026   " in
  exists b,
    TravelAgent.booking (TravelAgent.process u "ctx") = Some b /\
    b !! "type" = Some "Flight" /\
    b !! "departure" = Some "June 15 - June 22, 2026".
Proof.
  intros u. exists (TravelAgent.flight_booking (PyStr.strip u)).
  split; [reflexivity|]. split; [vm_compute; reflexivity|].
  destruct (flight_departure_is_trimmed_and_dated u "ctx"
              (TravelAgent.flight_booking (PyStr.strip u)))
    as [H _]; [reflexivity | vm_compute; reflexivity | exact H].
Defined.

(** X5: sending back the [departure] of a Flight booking as the input
    books the same flight again: the result is the same, field by field. *)
Theorem departure_resubmitted_books_same_flight
    (u c c' d : string) (b : TravelAgent.dict) :
  TravelAgent.booking (TravelAgent.process u c) = Some b ->
  b !! "type" = Some "Flight" ->
  b !! "departure" = Some d ->
  TravelAgent.process d c' = TravelAgent.process u c.
Proof.
  intros Hb Hty Hdep.
  destruct (flight_case u c b Hb Hty) as (Hhotel & Hdate & ->).
  assert (d = PyStr.strip u) as ->
    by (vm_compute in Hdep; injection Hdep as <-; reflexivity).
  rewrite !process_cases. cbv zeta.
  rewrite Hhotel, Hdate, (has_date_strip u Hdate), strip_idem.
  destruct (PyStr.contains "hotel" (PyStr.lower (PyStr.strip u))) eqn:E;
    [| reflexivity].
  rewrite lower_strip in E. apply contains_strip_inv in E.
  rewrite Hhotel in E. discriminate E.
Qed.

Lemma departure_resubmitted_books_same_flight_witness :
  TravelAgent.process "May 3" "second"
  = TravelAgent.process "  May 3 " "first".
Proof.
  apply (departure_resubmitted_books_same_flight "  May 3 " "first" "second"
           "May 3" (TravelAgent.flight_booking "May 3"));
    [reflexivity | vm_compute; reflexivity | vm_compute; reflexivity].
Defined.

(** ** The completion branch on any booking *)

Ltac split_lookups b :=
  repeat match goal with
         | |- context [b !! ?k] => destruct (b !! k) eqn:?; cbn
         end.

Lemma artifact_text_outcome (b : TravelAgent.dict) :
  match first_missing b (keys_read b) with
  | Some k => TravelAgentExecutor.artifact_text (Some b) = inl (KeyError k)
  | None => exists text, TravelAgentExecutor.artifact_text (Some b) = inr text
  end.
Proof.
  unfold keys_read, TravelAgentExecutor.artifact_text, TravelAgentExecutor.get.
  cbn. destruct (decide (b !! "type" = Some "Hotel")) as [Hty|Hty].
  - unfold TravelAgentExecutor.hotel_text, TravelAgentExecutor.getitem,
      hotel_keys. cbn. rewrite Hty. cbn.
    split_lookups b; try reflexivity. eexists; reflexivity.
  - unfold TravelAgentExecutor.flight_text, TravelAgentExecutor.getitem,
      flight_keys. cbn.
    split_lookups b; try reflexivity. eexists; reflexivity.
Qed.

Lemma artifact_text_none :
  TravelAgentExecutor.artifact_text None = inl (AttributeError "get").
Proof. reflexivity. Qed.

(** X6: when the business logic reports completion with a booking that
    lacks a key the formatting reads, [execute] raises [KeyError] for the
    first such key in reading order, having pushed the opening events
    only; [add_artifact] and [complete] are not called. *)
Theorem incomplete_booking_raises_key_error
    (agent : TravelAgentExecutor.Agent) (ctx : RequestContext)
    (q : EventQueue) (r : TravelAgent.result) (b : TravelAgent.dict)
    (k : string) :
  agent (input_of ctx) (context_id ctx) = inr r ->
  TravelAgent.needs_input r = false ->
  TravelAgent.booking r = Some b ->
  first_missing b (keys_read b) = Some k ->
  TravelAgentExecutor.execute_with agent ctx q
  = (inl (KeyError k), (q ++ opening ctx)%list).
Proof.
  intros Hr Hdone Hb Hk.
  rewrite execute_with_queue, Hr, Hdone, Hb.
  pose proof (artifact_text_outcome b) as H.
  rewrite Hk in H. rewrite H. reflexivity.
Qed.

Lemma incomplete_booking_raises_key_error_witness :
  let b : TravelAgent.dict :=
    <["type" := "Hotel"]> (<["hotel" := "Le Ciel"]> ∅) in
  first_missing b (keys_read b) = Some "location" /\
  TravelAgentExecutor.execute_with
    (agent_returning (TravelAgent.Result "done" false (Some b)))
    first_request ([] : EventQueue)
  = (inl (KeyError "location"), opening first_request).
Proof.
  intros b. split; [reflexivity|].
  exact (incomplete_booking_raises_key_error
           (agent_returning (TravelAgent.Result "done" false (Some b)))
           first_request [] (TravelAgent.Result "done" false (Some b))
           b "location" eq_refl eq_refl eq_refl eq_refl).
Defined.

(** X7: when the business logic reports completion without a booking,
    [execute] raises [AttributeError] on [booking.get], having pushed the
    opening events only. *)
Theorem missing_booking_raises_attribute_error
    (agent : TravelAgentExecutor.Agent) (ctx : RequestContext)
    (q : EventQueue) (r : TravelAgent.result) :
  agent (input_of ctx) (context_id ctx) = inr r ->
  TravelAgent.needs_input r = false ->
  TravelAgent.booking r = None ->
  TravelAgentExecutor.execute_with agent ctx q
  = (inl (AttributeError "get"), (q ++ opening ctx)%list).
Proof.
  intros Hr Hdone Hb.
  rewrite execute_with_queue, Hr, Hdone, Hb. reflexivity.
Qed.

Lemma missing_booking_raises_attribute_error_witness :
  TravelAgentExecutor.execute_with
    (agent_returning (TravelAgent.Result "done" false None)) first_request
    ([] : EventQueue)
  = (inl (AttributeError "get"), opening first_request).
Proof.
  apply (missing_booking_raises_attribute_error
           (agent_returning (TravelAgent.Result "done" false None))
           first_request [] (TravelAgent.Result "done" false None));
    reflexivity.
Defined.

(** ** The addressing of events *)



(** X10: one invocation of [execute] pushes one event for a new task, one
    for the start of work, and one ([requires_input]) or two
    ([add_artifact], [complete]) for the outcome: between two and four
    events in all. *)
Theorem execute_pushes_two_to_four_events (ctx : RequestContext) :
  let r := TravelAgent.process (input_of ctx) (context_id ctx) in
  let n := length (snd (TravelAgentExecutor.execute ctx ([] : EventQueue))) in
  n = (if current_task ctx is None then 1 else 0) + 1
      + (if TravelAgent.needs_input r then 1 else 2) /\
  2 <= n <= 4.
Proof.
  intros r n.
  destruct (execute_pushes ctx []) as (closing & Hrun & _ & Hclose & _).
  assert (Hn : n = length (opening ctx) + length closing).
  { unfold n. rewrite Hrun. simpl. apply length_app. }
  assert (Hopen : length (opening ctx)
                  = (if current_task ctx is None then 1 else 0) + 1).
  { unfold opening. destruct (current_task ctx); reflexivity. }
  assert (Hc : length closing = if TravelAgent.needs_input r then 1 else 2).
  { fold r in Hclose. destruct Hclose as [[-> ->] | [-> [text ->]]];
      reflexivity. }
  rewrite Hn, Hopen, Hc.
  destruct (current_task ctx), (TravelAgent.needs_input r); simpl; lia.
Qed.

(** ** The result dict *)

(** X12: in every result of [process], [booking] is [None] exactly when
    [needs_input] is true, and exactly then the response is the request
    for travel dates. *)
Theorem result_is_consistent (user_input context_id : string) :
  let r := TravelAgent.process user_input context_id in
  (TravelAgent.needs_input r = true <-> TravelAgent.booking r = None) /\
  (TravelAgent.needs_input r = true
   <-> TravelAgent.response r = TravelAgent.ask_dates) /\
  (TravelAgent.needs_input r = true
   <-> PyStr.contains "hotel" (PyStr.lower user_input) = false /\
       TravelAgent.has_date (PyStr.lower user_input) = false).
Proof.
  intros r. unfold r. rewrite process_cases. cbv zeta.
  destruct (PyStr.contains "hotel" (PyStr.lower user_input));
    [| destruct (TravelAgent.has_date (PyStr.lower user_input))];
    simpl; intuition (try discriminate; try reflexivity).
Qed.

(** ** The confirmation *)

Lemma prefix_refl (d : string) : String.prefix d d = true.
Proof.
  induction d as [|a d IH]; [reflexivity|].
  simpl. destruct (ascii_dec a a); [exact IH | congruence].
Qed.

Lemma contains_refl (d : string) : PyStr.contains d d = true.
Proof.
  destruct d as [|a d]; [reflexivity|].
  change (String.prefix (String a d) (String a d)
          || PyStr.contains (String a d) d = true).
  rewrite prefix_refl. reflexivity.
Qed.

Lemma flight_request_completes (ctx : RequestContext) (q : EventQueue) :
  PyStr.contains "hotel" (PyStr.lower (input_of ctx)) = false ->
  TravelAgent.has_date (PyStr.lower (input_of ctx)) = true ->
  TravelAgentExecutor.execute ctx q
  = (inr tt,
     (q ++ opening ctx ++
      [artifact_event (updater_of ctx)
         [TextPart (flight_confirmation (PyStr.strip (input_of ctx)))];
       status_event (updater_of ctx) COMPLETED
         (Some (reply ctx flight_reply))])%list).
Proof.
  intros Hhotel Hdate.
  unfold TravelAgentExecutor.execute. rewrite execute_with_queue.
  unfold TravelAgentExecutor.agent. rewrite process_cases. cbv zeta.
  rewrite Hhotel, Hdate.
  cbn [TravelAgent.needs_input TravelAgent.booking TravelAgent.response].
  rewrite flight_artifact_text. reflexivity.
Qed.

(** X13: for a request whose text holds a date word and not "hotel",
    [execute] attaches one artifact, the flight confirmation, and the text
    of the artifact shows the input as the user wrote it, without its
    surrounding whitespace. *)
Theorem flight_confirmation_shows_the_input
    (ctx : RequestContext) (q : EventQueue) :
  PyStr.contains "hotel" (PyStr.lower (input_of ctx)) = false ->
  TravelAgent.has_date (PyStr.lower (input_of ctx)) = true ->
  let dates := PyStr.strip (input_of ctx) in
  TravelAgentExecutor.execute ctx q
  = (inr tt,
     (q ++ opening ctx ++
      [artifact_event (updater_of ctx) [TextPart (flight_confirmation dates)];
       status_event (updater_of ctx) COMPLETED
         (Some (reply ctx flight_reply))])%list) /\
  PyStr.contains dates (flight_confirmation dates) = true.
Proof.
  intros Hhotel Hdate dates. split.
  - apply flight_request_completes; assumption.
  - unfold flight_confirmation.
    do 9 apply contains_app_l.
    apply contains_app_r, contains_refl.
Qed.

Lemma flight_confirmation_shows_the_input_witness :
  let ctx := {| get_user_input := Some " leaving 3 May 2027 ";
                current_task := None; task_id := 4; context_id := "ctx" |} in
  PyStr.contains "leaving 3 May 2027"
    (flight_confirmation (PyStr.strip (input_of ctx))) = true.
Proof.
  intros ctx.
  destruct (flight_confirmation_shows_the_input ctx [] eq_refl eq_refl)
    as [_ H].
  exact H.
Defined.

(** ** The current task *)

(** X14: [execute] looks at the current task only to see whether there is
    one.  Two requests that differ in the record of the current task, its
    state included, get the same result and the same events; a request
    without a current task gets these events after one SUBMITTED status.
    So with any business logic. *)
Theorem execute_ignores_task_content
    (agent : TravelAgentExecutor.Agent) (ctx : RequestContext)
    (t1 t2 : Task) (q : EventQueue) :
  TravelAgentExecutor.execute_with agent (with_task (Some t1) ctx) q
  = TravelAgentExecutor.execute_with agent (with_task (Some t2) ctx) q /\
  TravelAgentExecutor.execute_with agent (with_task None ctx) q
  = (fst (TravelAgentExecutor.execute_with agent (with_task (Some t1) ctx) q),
     (q ++ status_event (updater_of ctx) SUBMITTED None ::
           snd (TravelAgentExecutor.execute_with agent
                  (with_task (Some t1) ctx) ([] : EventQueue)))%list).
Proof.
  rewrite !execute_with_queue.
  change (input_of (with_task (Some t1) ctx)) with (input_of ctx).
  change (input_of (with_task (Some t2) ctx)) with (input_of ctx).
  change (input_of (with_task None ctx)) with (input_of ctx).
  cbn [context_id with_task].
  split.
  - destruct (agent (input_of ctx) (context_id ctx)) as [e|r]; [reflexivity|].
    destruct (TravelAgent.needs_input r); [reflexivity|].
    destruct (TravelAgentExecutor.artifact_text (TravelAgent.booking r));
      reflexivity.
  - destruct (agent (input_of ctx) (context_id ctx)) as [e|r]; [reflexivity|].
    destruct (TravelAgent.needs_input r); [reflexivity|].
    destruct (TravelAgentExecutor.artifact_text (TravelAgent.booking r));
      reflexivity.
Qed.

(** ** The lifecycle over two turns *)

(** X15: a first request without current task whose text makes the logic
    ask, followed by a request on the task whose text holds a date word
    and not "hotel", pushes the statuses SUBMITTED, WORKING,
    INPUT_REQUIRED, WORKING, COMPLETED in this order, with exactly one
    artifact, right before the completion. *)
Theorem two_turn_flight_lifecycle (ctx1 ctx2 : RequestContext) (t : Task) :
  current_task ctx1 = None ->
  current_task ctx2 = Some t ->
  TravelAgent.needs_input
    (TravelAgent.process (input_of ctx1) (context_id ctx1)) = true ->
  PyStr.contains "hotel" (PyStr.lower (input_of ctx2)) = false ->
  TravelAgent.has_date (PyStr.lower (input_of ctx2)) = true ->
  let q1 := snd (TravelAgentExecutor.execute ctx1 ([] : EventQueue)) in
  let q2 := snd (TravelAgentExecutor.execute ctx2 q1) in
  statuses q2 = [SUBMITTED; WORKING; INPUT_REQUIRED; WORKING; COMPLETED] /\
  map is_artifact q2 = [false; false; false; false; true; false].
Proof.
  intros Hnew Hcur Hask Hhotel Hdate q1 q2.
  pose proof (flight_request_completes ctx2 q1 Hhotel Hdate) as H2.
  unfold q2. rewrite H2. unfold q1, TravelAgentExecutor.execute.
  rewrite execute_with_queue. unfold TravelAgentExecutor.agent.
  rewrite Hask. unfold opening. rewrite Hnew, Hcur.
  split; reflexivity.
Qed.

Lemma two_turn_flight_lifecycle_witness :
  let ctx1 := {| get_user_input := Some "I need a flight to Tokyo next month";
                 current_task := None; task_id := 2; context_id := "ctx" |} in
  let ctx2 := {| get_user_input := Some "from 1 Sep to 9 Sep";
                 current_task := Some scenario1_task;
                 task_id := 2; context_id := "ctx" |} in
  statuses
    (snd (TravelAgentExecutor.execute ctx2
            (snd (TravelAgentExecutor.execute ctx1 ([] : EventQueue)))))
  = [SUBMITTED; WORKING; INPUT_REQUIRED; WORKING; COMPLETED].
Proof.
  intros ctx1 ctx2.
  destruct (two_turn_flight_lifecycle ctx1 ctx2 scenario1_task
              eq_refl eq_refl eq_refl eq_refl eq_refl) as [H _].
  exact H.
Defined.

(** ** The executor on any result dict *)

(** On a business logic that keeps to the docstring of [process],
    [execute_with] is [execute_dict]; so on any updater and any state. *)
Lemma execute_with_as_execute_dict {S} `{TaskUpdater S}
    (agent : TravelAgentExecutor.Agent) (ctx : RequestContext) (s : S) :
  TravelAgentExecutor.execute_with agent ctx s
  = TravelAgentExecutor.execute_dict (TravelAgentExecutor.on_dict agent) ctx s.
Proof.
  unfold TravelAgentExecutor.execute_with, TravelAgentExecutor.execute_dict,
    TravelAgentExecutor.on_dict, TravelAgentExecutor.subscript,
    mbind, Run_bind, lift, mret, Run_ret.
  destruct ctx as [inp cur tid cid]; simpl.
  set (inp' := match inp with
               | Some (String a s0 as s) => s
               | _ => EmptyString
               end).
  destruct cur as [t|]; cbv beta iota.
  2: match goal with
     | |- context [submit ?u ?s0] =>
         destruct (submit u s0) as [[e|x] s1]; [reflexivity|]
     end.
  all: match goal with
       | |- context [start_work ?u ?s0] =>
           destruct (start_work u s0) as [[e'|x'] s2]; [reflexivity|]
       end.
  all: destruct (agent inp' cid) as [e''|r]; [reflexivity|].
  all: simpl; destruct (TravelAgent.needs_input r); [reflexivity|].
  all: destruct (TravelAgentExecutor.artifact_text (TravelAgent.booking r))
         as [e3|text]; [reflexivity|].
  all: match goal with
       | |- context [add_artifact ?u ?ps ?s0] =>
           destruct (add_artifact u ps s0) as [[e4|x4] s4]; reflexivity
       end.
Qed.

Lemma execute_dict_queue (agent : TravelAgentExecutor.DictAgent)
    (ctx : RequestContext) (q : EventQueue) :
  TravelAgentExecutor.execute_dict agent ctx q =
  match agent (input_of ctx) (context_id ctx) with
  | inl e => (inl e, (q ++ opening ctx)%list)
  | inr r =>
      match TravelAgentExecutor.d_needs_input r with
      | None => (inl (KeyError "needs_input"), (q ++ opening ctx)%list)
      | Some true =>
          match TravelAgentExecutor.d_response r with
          | None => (inl (KeyError "response"), (q ++ opening ctx)%list)
          | Some text => (inr tt, (q ++ opening ctx ++ asking ctx text)%list)
          end
      | Some false =>
          match TravelAgentExecutor.d_booking r with
          | None => (inl (KeyError "booking"), (q ++ opening ctx)%list)
          | Some booking =>
              match TravelAgentExecutor.artifact_text booking with
              | inl e => (inl e, (q ++ opening ctx)%list)
              | inr text =>
                  match TravelAgentExecutor.d_response r with
                  | None =>
                      (inl (KeyError "response"),
                       (q ++ opening ctx ++
                        [artifact_event (updater_of ctx) [TextPart text]])%list)
                  | Some response =>
                      (inr tt,
                       (q ++ opening ctx ++ completing ctx text response)%list)
                  end
              end
          end
      end
  end.
Proof.
  unfold TravelAgentExecutor.execute_dict, opening, asking, completing,
    input_of, updater_of, reply.
  destruct ctx as [inp cur tid cid]; simpl.
  set (u := {| u_task_id := tid; u_context_id := cid |}).
  set (inp' := match inp with
               | Some (String a s0 as s) => s
               | _ => EmptyString
               end).
  destruct cur as [t|];
    unfold mbind, Run_bind, mret, Run_ret, lift, enqueue_event,
      TravelAgentExecutor.subscript; simpl;
    (destruct (agent inp' cid) as [e|[resp [[|]|] bk]]; simpl;
     [ close_run
     | destruct resp; close_run
     | destruct bk as [booking|]; simpl;
       [ destruct (TravelAgentExecutor.artifact_text booking); simpl;
         [ close_run | destruct resp; close_run ]
       | close_run ]
     | close_run ]).
Qed.

Ltac dict_facts :=
  unfold asking, completing, status_event, artifact_event in *;
  repeat (cbn [TravelAgentExecutor.d_needs_input
               TravelAgentExecutor.d_response
               TravelAgentExecutor.d_booking] in *;
          match goal with
          | H : exists _, _ |- _ => destruct H
          | H : _ /\ _ |- _ => destruct H
          | H : inr _ = inr _ |- _ => injection H as H; subst
          | H : inl _ = inr _ |- _ => discriminate H
          | H : Some _ = Some _ |- _ => injection H as H; subst
          | H : Some _ = None |- _ => discriminate H
          | H : None = Some _ |- _ => discriminate H
          | H : TravelAgentExecutor.ResultDict _ _ _ = _ |- _ =>
              rewrite <- H in *; clear H
          | H : _ :: _ = _ :: _ |- _ => injection H as H; subst
          | H : [] = _ :: _ |- _ => discriminate H
          | H : _ :: _ = [] |- _ => discriminate H
          | H : StatusUpdate _ _ _ _ _ = ArtifactUpdate _ _ _ _ |- _ =>
              discriminate H
          | H : ArtifactUpdate _ _ _ _ = StatusUpdate _ _ _ _ _ |- _ =>
              discriminate H
          | H : StatusUpdate _ _ _ _ _ = StatusUpdate _ _ _ _ _ |- _ =>
              try discriminate H; injection H as H; subst
          | H : ArtifactUpdate _ _ _ _ = ArtifactUpdate _ _ _ _ |- _ =>
              injection H as H; subst
          | H : _ = _ |- _ => discriminate H
          end).

(** X11: whatever dict the business logic returns, its keys missing or
    not, [execute] pushes after the opening events either nothing more
    (it raised), or one INPUT_REQUIRED status, or one artifact followed by
    the COMPLETED status, or one artifact alone.  So a COMPLETED status is
    pushed only right after the artifact and as the last event.  The
    artifact is followed by the completion exactly when the dict reports
    completion with a booking that can be formatted and holds [response];
    it is left alone, with [KeyError] raised on [response], exactly when
    such a dict lacks [response]. *)
Theorem completion_only_after_its_artifact
    (agent : TravelAgentExecutor.DictAgent) (ctx : RequestContext) :
  let run := TravelAgentExecutor.execute_dict agent ctx ([] : EventQueue) in
  let u := updater_of ctx in
  exists closing : list Event,
    snd run = (opening ctx ++ closing)%list /\
    ((closing = [] /\ exists e, fst run = inl e) \/
     (exists text,
        closing = [status_event u INPUT_REQUIRED (Some (reply ctx text))] /\
        fst run = inr tt) \/
     (exists text response,
        closing = [artifact_event u [TextPart text];
                   status_event u COMPLETED (Some (reply ctx response))] /\
        fst run = inr tt) \/
     (exists text,
        closing = [artifact_event u [TextPart text]] /\
        fst run = inl (KeyError "response"))) /\
    (forall text response,
       closing = [artifact_event u [TextPart text];
                  status_event u COMPLETED (Some (reply ctx response))]
       <->
       exists r booking,
         agent (input_of ctx) (context_id ctx) = inr r /\
         TravelAgentExecutor.d_needs_input r = Some false /\
         TravelAgentExecutor.d_booking r = Some booking /\
         TravelAgentExecutor.artifact_text booking = inr text /\
         TravelAgentExecutor.d_response r = Some response) /\
    (forall text,
       closing = [artifact_event u [TextPart text]]
       <->
       exists r booking,
         agent (input_of ctx) (context_id ctx) = inr r /\
         TravelAgentExecutor.d_needs_input r = Some false /\
         TravelAgentExecutor.d_booking r = Some booking /\
         TravelAgentExecutor.artifact_text booking = inr text /\
         TravelAgentExecutor.d_response r = None).
Proof.
  intros run u. unfold run. rewrite execute_dict_queue. fold u.
  destruct (agent (input_of ctx) (context_id ctx))
    as [e|[resp [[|]|] bk]] eqn:E; cbn [fst snd app
      TravelAgentExecutor.d_needs_input TravelAgentExecutor.d_response
      TravelAgentExecutor.d_booking].
  - exists []. rewrite app_nil_r. split; [reflexivity|].
    split; [left; eauto|]. split; intros; split; intros HH; dict_facts.
  - destruct resp as [text|]; cbn [fst snd app].
    + exists (asking ctx text). split; [reflexivity|].
      split; [right; left; exists text; split; reflexivity|].
      unfold asking. split; intros; split; intros HH; dict_facts.
    + exists []. rewrite app_nil_r. split; [reflexivity|].
      split; [left; eauto|]. split; intros; split; intros HH; dict_facts.
  - destruct bk as [booking|]; cbn [fst snd app].
    + destruct (TravelAgentExecutor.artifact_text booking) as [e|text] eqn:Et;
        cbn [fst snd app].
      * exists []. rewrite app_nil_r. split; [reflexivity|].
        split; [left; eauto|].
        split; intros; split; intros HH; dict_facts; congruence.
      * destruct resp as [response|]; cbn [fst snd app].
        -- exists (completing ctx text response). split; [reflexivity|].
           split; [right; right; left; exists text, response;
                   split; reflexivity|].
           unfold completing, artifact_event, status_event, reply,
             new_agent_text_message. fold u.
           split; intros; split; intros HH; dict_facts;
             try (eexists _, _; repeat split; eauto; fail);
             try congruence.
        -- exists [artifact_event u [TextPart text]].
           split; [reflexivity|].
           split; [right; right; right; exists text; split; reflexivity|].
           unfold artifact_event. 
           split; intros; split; intros HH; dict_facts;
             try (eexists _, _; repeat split; eauto; fail);
             try congruence.
    + exists []. rewrite app_nil_r. split; [reflexivity|].
      split; [left; eauto|]. split; intros; split; intros HH; dict_facts.
  - exists []. rewrite app_nil_r. split; [reflexivity|].
    split; [left; eauto|]. split; intros; split; intros HH; dict_facts.
Qed.

(** A logic whose dict reports completion with the hotel booking and has
    no [response]: the artifact is pushed, then [KeyError] is raised. *)
Lemma completion_only_after_its_artifact_witness :
  let agent :=
    dict_agent_returning
      {| TravelAgentExecutor.d_response := None;
         TravelAgentExecutor.d_needs_input := Some false;
         TravelAgentExecutor.d_booking := Some (Some TravelAgent.hotel_booking) |} in
  snd (TravelAgentExecutor.execute_dict agent first_request ([] : EventQueue))
  = (opening first_request ++
     [artifact_event (updater_of first_request)
        [TextPart hotel_confirmation]])%list.
Proof.
  intros agent.
  destruct (completion_only_after_its_artifact agent first_request)
    as (closing & Hrun & _ & _ & Hleft).
  assert (Hc : closing = [artifact_event (updater_of first_request)
                            [TextPart hotel_confirmation]]).
  { apply Hleft. eexists _, _.
    split; [reflexivity|]. split; [reflexivity|]. split; [reflexivity|].
    split; [apply hotel_artifact_text | reflexivity]. }
  subst closing. exact Hrun.
Defined.

(** ** Exceptions of the business logic *)

(** X16: [execute] has no failure branch.  Whatever the business logic
    returns or raises, no FAILED and no CANCELED status is pushed; when
    the logic raises, the same exception leaves [execute], which has
    pushed the opening events only. *)
Theorem execute_never_reports_failure
    (agent : TravelAgentExecutor.DictAgent) (ctx : RequestContext)
    (q : EventQueue) :
  (forall ev,
     In ev (snd (TravelAgentExecutor.execute_dict agent ctx q)) ->
     In ev q \/
     (event_state ev <> Some FAILED /\ event_state ev <> Some CANCELED)) /\
  (forall e,
     agent (input_of ctx) (context_id ctx) = inl e ->
     TravelAgentExecutor.execute_dict agent ctx q
     = (inl e, (q ++ opening ctx)%list)).
Proof.
  split.
  - intros ev. rewrite execute_dict_queue.
    assert (Hopen : forall ev', In ev' (opening ctx) ->
              event_state ev' <> Some FAILED /\
              event_state ev' <> Some CANCELED).
    { intros ev'. unfold opening. destruct (current_task ctx); simpl;
        intros H; repeat (destruct H as [<-|H]; [split; discriminate|]);
        destruct H. }
    assert (Hq : In ev (q ++ opening ctx)%list ->
              In ev q \/
              (event_state ev <> Some FAILED /\
               event_state ev <> Some CANCELED)).
    { rewrite in_app_iff. intros [H|H]; [left; exact H | right; auto]. }
    destruct (agent (input_of ctx) (context_id ctx))
      as [e|[resp [[|]|] bk]]; cbn [fst snd
        TravelAgentExecutor.d_needs_input TravelAgentExecutor.d_response
        TravelAgentExecutor.d_booking]; try exact Hq.
    + destruct resp as [text|]; cbn [snd]; [| exact Hq].
      rewrite app_assoc, in_app_iff. intros [H|H]; [auto|].
      destruct H as [<-|[]]. right. split; discriminate.
    + destruct bk as [booking|]; cbn [snd]; [| exact Hq].
      destruct (TravelAgentExecutor.artifact_text booking) as [e|text];
        cbn [snd]; [exact Hq|].
      destruct resp as [response|]; cbn [snd];
        rewrite app_assoc, in_app_iff; (intros [H|H]; [auto|]).
      * destruct H as [<-|[<-|[]]]; right; split; discriminate.
      * destruct H as [<-|[]]. right. split; discriminate.
  - intros e He. rewrite execute_dict_queue, He. reflexivity.
Qed.

Lemma execute_never_reports_failure_witness :
  TravelAgentExecutor.execute_dict
    (fun _ _ => inl (BusinessLogicError "no seats left"))
    first_request ([] : EventQueue)
  = (inl (BusinessLogicError "no seats left"), opening first_request).
Proof.
  destruct (execute_never_reports_failure
              (fun _ _ => inl (BusinessLogicError "no seats left"))
              first_request []) as [_ H].
  exact (H _ eq_refl).
Defined.
